(** * SEO keyword finder: a shallow embedding of [backend/main.py]

    The service is a linear request pipeline: extract text from an uploaded
    document, ask a language model for a keyword taxonomy, rank the keywords
    with a search-trends service, ask the model for marketing copy and export
    it as a word-processing document.

    Conventions of the model.
    - A Python [str] is a [string]; one [ascii] stands for one code point, so
      the model covers texts over U+0000..U+00FF.
    - A Python [float] score is a rational [Q] (finite values only; negation
      and comparison of finite floats are exact).
    - A Python [dict] used as a map is a [gmap]; [dict.fromkeys], whose
      insertion order is observed, is an association list.
    - External services (document parsers, the language model, the trends
      service, the JSON parser, the document library and its writer) are
      fields of a [world] record; the calls that leave the process are
      logged in an event trace. *)

From Stdlib Require Import Ascii QArith Sorted.
From stdpp Require Import base list strings pretty gmap.

Local Open Scope string_scope.
Local Open Scope list_scope.
Local Open Scope nat_scope.

(** ** Python lists: slices and ranges *)

Module PyList.

(** [lst[i : j]] for indexes [0 <= i], [0 <= j]. *)
Definition slice {A} (lst : list A) (i j : nat) : list A :=
  take (j - i) (drop i lst).

(** Number of elements of [range(0, stop, step)] for [0 < step]:
    the quotient rounded up. *)
Definition range_len (stop step : nat) : nat :=
  (stop + step - 1) / step.

(** [range(0, stop, step)], [0 < step]. *)
Definition range0 (stop step : nat) : list nat :=
  (λ k, k * step) <$> seq 0 (range_len stop step).

End PyList.

(** ** Python strings *)

Module PyStr.

Definition code (c : ascii) : nat := nat_of_ascii c.

Definition between (lo hi n : nat) : bool := (lo <=? n)%nat && (n <=? hi)%nat.

(** [str.isspace] on one code point; also the class [\s] of [re]. *)
Definition is_space (c : ascii) : bool :=
  let n := code c in
  between 9 13 n || between 28 32 n || (n =? 133)%nat || (n =? 160)%nat.

(** The line boundaries of [str.splitlines] (a CR LF pair counts once). *)
Definition is_linebreak (c : ascii) : bool :=
  let n := code c in
  between 10 13 n || between 28 30 n || (n =? 133)%nat.

Definition LF : ascii := "010"%char.
Definition CR : ascii := "013"%char.

(** [str.lower] on one code point. *)
Definition lower_char (c : ascii) : ascii :=
  let n := code c in
  if between 65 90 n || (between 192 222 n && negb (n =? 215)%nat)
  then ascii_of_nat (n + 32) else c.

Fixpoint lower (s : string) : string :=
  match s with
  | "" => ""
  | String c r => String (lower_char c) (lower r)
  end.

Fixpoint startswith (s p : string) {struct p} : bool :=
  match p, s with
  | "", _ => true
  | String _ _, "" => false
  | String a p', String b s' => if Ascii.eqb a b then startswith s' p' else false
  end.

(** [s[n:]] and [s[:n]] for [0 <= n]. *)
Fixpoint str_drop (n : nat) (s : string) : string :=
  match n, s with
  | O, _ => s
  | S _, "" => ""
  | S n', String _ r => str_drop n' r
  end.

Fixpoint str_take (n : nat) (s : string) : string :=
  match n, s with
  | O, _ => ""
  | S _, "" => ""
  | S n', String c r => String c (str_take n' r)
  end.

(** [s[i:j]] for [0 <= i], [0 <= j]. *)
Definition slice (s : string) (i j : nat) : string :=
  str_take (j - i) (str_drop i s).

Definition endswith (s suffix : string) : bool :=
  (String.length suffix <=? String.length s)%nat &&
  String.eqb (str_drop (String.length s - String.length suffix) s) suffix.

(** Removal of the leading, trailing, and leading and trailing characters
    of a class. *)
Fixpoint lstrip_by (p : ascii → bool) (s : string) : string :=
  match s with
  | "" => ""
  | String c r => if p c then lstrip_by p r else s
  end.

Fixpoint rstrip_by (p : ascii → bool) (s : string) : string :=
  match s with
  | "" => ""
  | String c r =>
      match rstrip_by p r with
      | "" => if p c then "" else String c ""
      | r' => String c r'
      end
  end.

Definition strip_by (p : ascii → bool) (s : string) : string :=
  rstrip_by p (lstrip_by p s).

(** [s.strip()] *)
Definition strip (s : string) : string := strip_by is_space s.

Fixpoint mem (c : ascii) (chars : string) : bool :=
  match chars with
  | "" => false
  | String a r => Ascii.eqb c a || mem c r
  end.

(** [s.strip(chars)] *)
Definition strip_chars (chars s : string) : string :=
  strip_by (λ c, mem c chars) s.

(** [s.splitlines()]: the lines without their terminators; a terminator at
    the very end opens no further line. *)
Definition cons_head (c : ascii) (ls : list string) : list string :=
  match ls with
  | [] => [String c ""]
  | l :: ls' => String c l :: ls'
  end.

Fixpoint splitlines (s : string) : list string :=
  match s with
  | "" => []
  | String c r =>
      if is_linebreak c then
        "" :: match r with
              | String c' r' =>
                  if Ascii.eqb c CR && Ascii.eqb c' LF
                  then splitlines r' else splitlines r
              | "" => []
              end
      else cons_head c (splitlines r)
  end.

(** [sep.join(parts)] *)
Fixpoint join (sep : string) (parts : list string) : string :=
  match parts with
  | [] => ""
  | [p] => p
  | p :: ps => p +:+ sep +:+ join sep ps
  end.

(** [s.find(c)] and [s.rfind(c)] for a needle of one character: the index
    of its first, respectively last, occurrence, or [-1]. *)
Fixpoint find (c : ascii) (s : string) : Z :=
  match s with
  | "" => -1
  | String a r =>
      if Ascii.eqb a c then 0
      else let i := find c r in if (i =? -1)%Z then -1 else i + 1
  end%Z.

Fixpoint rfind (c : ascii) (s : string) : Z :=
  match s with
  | "" => -1
  | String a r =>
      let i := rfind c r in
      if (i =? -1)%Z then (if Ascii.eqb a c then 0 else -1) else i + 1
  end%Z.

End PyStr.

(** ** Insertion-ordered dictionaries

    [dict.fromkeys] is observed through the order of its keys, so this one
    dictionary is an association list in insertion order. *)

Module PyDict.

Section dict.
Context {K V : Type} `{EqDecision K}.

(** [d[k] = v]: an existing key keeps its place. *)
Fixpoint setitem (k : K) (v : V) (d : list (K * V)) : list (K * V) :=
  match d with
  | [] => [(k, v)]
  | (k', v') :: d' =>
      if decide (k = k') then (k', v) :: d' else (k', v') :: setitem k v d'
  end.

(** [dict.fromkeys(l, v)] *)
Definition fromkeys (l : list K) (v : V) : list (K * V) :=
  foldl (λ d k, setitem k v d) [] l.

(** [list(d)] *)
Definition keys (d : list (K * V)) : list K := d.*1.

End dict.

End PyDict.

(** [list(dict.fromkeys(l))] *)
Definition unique_keys (l : list string) : list string :=
  PyDict.keys (PyDict.fromkeys l tt).

(** What the idiom is for, stated on its own: every element once, at the
    place of its first occurrence. *)
Fixpoint first_occurrences (l : list string) : list string :=
  match l with
  | [] => []
  | x :: l' => x :: filter (λ y, y ≠ x) (first_occurrences l')
  end.

(** ** Helpers of the service *)

(** [_clean_json_block(s)]; [fenced] is its first half, the text once the
    code fences are removed. *)
Definition backtick : ascii := "`"%char.
Definition lbrace : ascii := "{"%char.
Definition rbrace : ascii := "}"%char.

Definition fenced (s : string) : string :=
  let s := PyStr.strip s in
  if PyStr.startswith s "```" then
    let s := PyStr.strip_chars "`" s in
    PyStr.join (String PyStr.LF "") (tail (PyStr.splitlines s))
  else s.

Definition _clean_json_block (s : string) : string :=
  let s := fenced s in
  let start := PyStr.find lbrace s in
  let end_ := PyStr.rfind rbrace s in
  if negb (start =? -1)%Z && negb (end_ =? -1)%Z && (start <? end_)%Z
  then PyStr.slice s (Z.to_nat start) (Z.to_nat (end_ + 1))
  else s.

(** [chunk(lst, n)]: [[lst[i : i + n] for i in range(0, len(lst), n)]].
    (For [n = 0] Python's [range] raises; the only caller passes [5].) *)
Definition chunk {A} (lst : list A) (n : nat) : list (list A) :=
  (λ i, PyList.slice lst i (i + n)) <$> PyList.range0 (length lst) n.

(** ** The exported document *)

(** The body of a [docx] document: [add_heading(text, level)] and
    [add_paragraph(text, style)] append one block each. *)
Inductive block :=
  | Heading (level : nat) (text : string)
  | Paragraph (text : string) (style : option string).

#[global] Instance block_eq_dec : EqDecision block.
Proof. solve_decision. Defined.

(** The text of a block. *)
Definition block_text (b : block) : string :=
  match b with
  | Heading _ text => text
  | Paragraph text _ => text
  end.

Definition add_heading (text : string) (level : nat) (doc : list block) :=
  doc ++ [Heading level text].

Definition add_paragraph (text : string) (style : option string)
    (doc : list block) :=
  doc ++ [Paragraph text style].

(** [re.match(r"^\s*-\s+", line)], and [re.sub] of the same pattern by the
    empty string on a line that matches: what follows the match. Since
    ["-"] is no space, the greedy [\s*] never has to give characters back;
    without the multi-line flag [^] matches at the start only, so [re.sub]
    removes one match. *)
Definition bullet_rest (line : string) : option string :=
  match PyStr.lstrip_by PyStr.is_space line with
  | String a (String c r) =>
      if Ascii.eqb a "-" && PyStr.is_space c
      then Some (PyStr.lstrip_by PyStr.is_space r)
      else None
  | _ => None
  end.

(** One turn of the loop of [markdown_to_docx]. *)
Definition add_line (doc : list block) (line : string) : list block :=
  if PyStr.startswith line "## " then
    add_heading (PyStr.str_drop 3 line) 1 doc
  else if PyStr.startswith line "### " then
    add_heading (PyStr.str_drop 4 line) 2 doc
  else match bullet_rest line with
       | Some rest => add_paragraph rest (Some "List Bullet") doc
       | None => add_paragraph line None doc
       end.

(** The block a turn of the loop appends. *)
Definition line_block (line : string) : block :=
  if PyStr.startswith line "## " then Heading 1 (PyStr.str_drop 3 line)
  else if PyStr.startswith line "### " then Heading 2 (PyStr.str_drop 4 line)
  else match bullet_rest line with
       | Some rest => Paragraph rest (Some "List Bullet")
       | None => Paragraph line None
       end.

(** The document [markdown_to_docx] builds before saving it, when the
    library takes the block of every line. *)
Definition markdown_blocks (md_text : string) : list block :=
  foldl add_line [] (PyStr.splitlines md_text).

(** ** Exceptions, traces and the request monad *)

Inductive exn :=
  | HTTPException (status_code : Z) (detail : string)
  | ExternalError (msg : string).

(** [str(e)] *)
Definition exn_str (e : exn) : string :=
  match e with
  | HTTPException c d => pretty c +:+ ": " +:+ d
  | ExternalError m => m
  end.

Inductive result (A : Type) :=
  | Return (a : A)
  | Raise (e : exn).
Arguments Return {A} a.
Arguments Raise {A} e.

(** The calls that leave the process. *)
Inductive event :=
  | EvTempWrite (content : string)
  | EvPdfOpen
  | EvDocxOpen
  | EvLLM (prompt : string)
  | EvTrendReq
  | EvTrendsQuery (group : list string)
  | EvUuid
  | EvDocxSave (path : string) (doc : list block).

(** A computation logs its calls and returns or raises. *)
Definition M (A : Type) : Type := list event * result A.

Definition ret {A} (a : A) : M A := ([], Return a).
Definition raise {A} (e : exn) : M A := ([], Raise e).
Definition call {A} (ev : event) (r : result A) : M A := ([ev], r).
Definition lift {A} (r : result A) : M A := ([], r).

Definition bind {A B} (m : M A) (f : A → M B) : M B :=
  match m with
  | (t, Return a) => let '(t', r) := f a in (t ++ t', r)
  | (t, Raise e) => (t, Raise e)
  end.

(** [try: m except Exception as e: h e] *)
Definition try_except {A} (m : M A) (h : exn → M A) : M A :=
  match m with
  | (t, Raise e) => let '(t', r) := h e in (t ++ t', r)
  | (t, Return a) => (t, Return a)
  end.

Notation "'let*' x ':=' m 'in' k" := (bind m (λ x, k))
  (at level 10, x name, m at level 100, k at level 200,
   format "'[v' 'let*'  x  :=  m  'in'  '/' k ']'").

Definition trace {A} (m : M A) : list event := m.1.
Definition outcome {A} (m : M A) : result A := m.2.

Definition is_llm_or_trends (ev : event) : bool :=
  match ev with
  | EvLLM _ | EvTrendReq | EvTrendsQuery _ => true
  | _ => false
  end.

(** ** Data of a request *)

(** A JSON value, as [json.loads] returns it. *)
#[warnings="-register-all"]
Inductive json :=
  | JNull
  | JBool (b : bool)
  | JNum (q : Q)
  | JStr (s : string)
  | JArr (l : list json)
  | JObj (l : list (string * json)).

(** The dictionary parsed from the model's reply. The two keyword lists are
    lists of strings, as the prompt's schema has them; the other entries
    are passed through as they are. A field is [None] when its key is
    absent. *)
Record seo_dict := {
  sd_language_detected : option json;
  sd_primary_topics : option json;
  sd_by_intent : option json;
  sd_questions : option json;
  sd_seed_keywords : option (list string);
  sd_long_tail_keywords : option (list string);
}.

(** An entry of [keywords_ranked]. *)
Record ranked_keyword := {
  keyword : string;
  popularity : option Q;
}.

(** The JSON object [upload] returns. *)
Record upload_response := {
  language_detected : json;
  primary_topics : json;
  by_intent : json;
  questions : json;
  keywords_ranked : list ranked_keyword;
  seed_keywords : list string;
  long_tail_keywords : list string;
  seo_copy_markdown : string;
  docx_filename : option string;
}.

(** A reply of the language-model client. *)
Record llm_response := {
  output_text : option string;
  response_str : string;
}.

(** The fixed text of the two prompt templates, around their holes. *)
Record templates := {
  keywords_head : string;
  keywords_tail : string;
  copy_head : string;
  copy_mid : string;
  copy_tail : string;
}.

(** The services outside the process.
    - [pdf_pages]: the text of each page of the file ([None]: no text);
    - [docx_paragraphs]: the text of each paragraph of the file;
    - [responses_create]: the language model, from the prompt;
    - [json_loads]: the JSON parser;
    - [trend_req]: the construction of the trends client;
    - [interest_over_time]: for the batch of the given index, the mean of
      each column of the data frame once [isPartial] is dropped; [None]
      when the frame is missing or empty;
    - [uuid4_hex]: the random token of the file name;
    - [docx_add]: the document library, asked for one more heading or
      paragraph: [add_heading] and [add_paragraph] raise on a text the
      library cannot hold (a control character, say);
    - [docx_save]: the document writer. *)
Record world := {
  pdf_pages : string → result (list (option string));
  docx_paragraphs : string → result (list string);
  responses_create : string → result llm_response;
  json_loads : string → result seo_dict;
  trend_req : result unit;
  interest_over_time : nat → list string → result (option (gmap string Q));
  uuid4_hex : string;
  docx_add : block → result unit;
  docx_save : string → list block → result unit;
}.

(** ** Popularity *)

(** [scores.get(k)] on a dictionary whose values may be [None]. *)
Definition dict_get (scores : gmap string (option Q)) (k : string) : option Q :=
  default None (scores !! k).

(** [scores.setdefault(k, v)] *)
Definition setdefault (k : string) (v : option Q)
    (scores : gmap string (option Q)) : gmap string (option Q) :=
  match scores !! k with
  | Some _ => scores
  | None => <[k := v]> scores
  end.

(** [for k in group: scores.setdefault(k, None)] *)
Definition set_unknown (group : list string)
    (scores : gmap string (option Q)) : gmap string (option Q) :=
  foldl (λ sc k, setdefault k None sc) scores group.

(** [for k in group: scores[k] = float(means.get(k)) if k in means else None] *)
Definition record_means (means : gmap string Q) (group : list string)
    (scores : gmap string (option Q)) : gmap string (option Q) :=
  foldl (λ sc k, <[k := means !! k]> sc) scores group.

(** ** Ranking *)

(** The values of [sort_key]: [float("-inf")] or a number. *)
Inductive key :=
  | NegInf
  | Num (q : Q).

Definition key_le (a b : key) : bool :=
  match a, b with
  | NegInf, _ => true
  | Num _, NegInf => false
  | Num x, Num y => Qle_bool x y
  end.

Definition key_lt (a b : key) : bool := negb (key_le b a).

(** [sorted(l, key=f, reverse=True)]: a stable sort in descending order of
    the keys; elements with equal keys keep their order in [l]. An element
    is put after the elements of strictly greater key, before the rest. *)
Fixpoint insert_desc {A} (f : A → key) (x : A) (l : list A) : list A :=
  match l with
  | [] => [x]
  | y :: l' => if key_lt (f x) (f y) then y :: insert_desc f x l' else x :: l
  end.

Definition sorted_reverse {A} (f : A → key) (l : list A) : list A :=
  foldr (insert_desc f) [] l.

(** Two readings of the result: the keys never increase along it, and the
    elements of one key are those of the input in their order. *)
Definition keys_descend {A} (f : A → key) (x y : A) : Prop :=
  key_le (f y) (f x) = true.

Definition same_key {A} (f : A → key) (c : key) (x : A) : Prop :=
  key_le (f x) c = true ∧ key_le c (f x) = true.

#[global] Instance same_key_dec {A} (f : A → key) c x :
  Decision (same_key f c x).
Proof. unfold same_key. apply _. Defined.

(** The closure [sort_key] of [upload]. *)
Definition sort_key (popularity : gmap string (option Q)) (k : string) : key :=
  match dict_get popularity k with
  | Some v => Num (- v)
  | None => NegInf
  end.

Definition rank (popularity : gmap string (option Q))
    (candidates : list string) : list string :=
  sorted_reverse (sort_key popularity) candidates.

Definition ranked_entries (popularity : gmap string (option Q))
    (ranked : list string) : list ranked_keyword :=
  (λ k, {| keyword := k; popularity := dict_get popularity k |}) <$> ranked.

(** ** The pipeline *)

Section pipeline.
Context (tpl : templates) (w : world).

Definition nonempty (s : string) : bool := negb (String.eqb s "").

(** [extract_text_from_pdf] *)
Definition extract_text_from_pdf (content : string) : M string :=
  let* pages := call EvPdfOpen (pdf_pages w content) in
  ret (PyStr.join (String PyStr.LF "")
         (filter (λ txt, nonempty txt = true) (default "" <$> pages))).

(** [extract_text_from_docx] *)
Definition extract_text_from_docx (content : string) : M string :=
  let* paragraphs := call EvDocxOpen (docx_paragraphs w content) in
  ret (PyStr.join (String PyStr.LF "")
         (filter (λ txt, nonempty txt = true) paragraphs)).

(** [getattr(response, "output_text", None) or str(response)] *)
Definition text_of (r : llm_response) : string :=
  match output_text r with
  | Some s => if nonempty s then s else response_str r
  | None => response_str r
  end.

(** [generate_keywords_from_doc] *)
Definition generate_keywords_from_doc (doc_text : string) : M seo_dict :=
  let prompt :=
    PyStr.strip (keywords_head tpl +:+ PyStr.str_take 12000 doc_text
                 +:+ keywords_tail tpl) in
  let* response := call (EvLLM prompt) (responses_create w prompt) in
  let payload := _clean_json_block (text_of response) in
  let* data := lift (json_loads w payload) in
  ret {| sd_language_detected := sd_language_detected data;
         sd_primary_topics := sd_primary_topics data;
         sd_by_intent := sd_by_intent data;
         sd_questions := sd_questions data;
         sd_seed_keywords := Some (default [] (sd_seed_keywords data));
         sd_long_tail_keywords :=
           Some (default [] (sd_long_tail_keywords data)) |}.

(** The body of the loop of [trends_popularity] for the batch number [i]. *)
Definition query_group (i : nat) (group : list string)
    (scores : gmap string (option Q)) : M (gmap string (option Q)) :=
  try_except
    (let* df := call (EvTrendsQuery group) (interest_over_time w i group) in
     match df with
     | None => ret (set_unknown group scores)
     | Some means => ret (record_means means group scores)
     end)
    (λ _, ret (set_unknown group scores)).

Fixpoint query_groups (i : nat) (groups : list (list string))
    (scores : gmap string (option Q)) : M (gmap string (option Q)) :=
  match groups with
  | [] => ret scores
  | group :: rest =>
      let* scores' := query_group i group scores in
      query_groups (S i) rest scores'
  end.

(** [trends_popularity] *)
Definition trends_popularity (keywords : list string)
    : M (gmap string (option Q)) :=
  match keywords with
  | [] => ret ∅
  | _ =>
      let* pytrends := call EvTrendReq (trend_req w) in
      query_groups 0 (chunk keywords 5) ∅
  end.

(** The prompt of [compose_seo_copy_en]. *)
Definition copy_prompt (doc_text : string) (ranked_keywords : list string)
    : string :=
  let top_kw :=
    match ranked_keywords with
    | [] => ""
    | _ => PyStr.join ", " (take 15 ranked_keywords)
    end in
  PyStr.strip (copy_head tpl +:+ top_kw +:+ copy_mid tpl
               +:+ PyStr.str_take 10000 doc_text +:+ copy_tail tpl).

(** [compose_seo_copy_en] *)
Definition compose_seo_copy_en (doc_text : string)
    (ranked_keywords : list string) : M string :=
  let prompt := copy_prompt doc_text ranked_keywords in
  let* resp := call (EvLLM prompt) (responses_create w prompt) in
  ret (text_of resp).

(** The loop of [markdown_to_docx]: the call of a turn, [add_heading] or
    [add_paragraph] with the arguments [line_block] gives, may raise; when
    it returns the document has grown as [add_line] says. *)
Fixpoint add_lines (doc : list block) (lines : list string)
    : M (list block) :=
  match lines with
  | [] => ret doc
  | line :: rest =>
      let* added := lift (docx_add w (line_block line)) in
      add_lines (add_line doc line) rest
  end.

(** [markdown_to_docx]: the document is saved when the loop is through. *)
Definition markdown_to_docx (md_text out_path : string) : M unit :=
  let* doc := add_lines [] (PyStr.splitlines md_text) in
  call (EvDocxSave out_path doc) (docx_save w out_path doc).

(** The candidate list of [upload]. *)
Definition seeds_of (seo_data : seo_dict) : list string :=
  take 15 (unique_keys (default [] (sd_seed_keywords seo_data))).

Definition longtails_of (seo_data : seo_dict) : list string :=
  take 15 (unique_keys (default [] (sd_long_tail_keywords seo_data))).

(** Steps (2) to (6) of [upload], from the extracted text and the parsed
    reply on. *)
Definition respond (text : string) (seo_data : seo_dict) : M upload_response :=
  let seeds := seeds_of seo_data in
  let longtails := longtails_of seo_data in
  let candidates := seeds ++ longtails in
  let* popularity := trends_popularity candidates in
  let ranked := rank popularity candidates in
  let keywords_ranked := ranked_entries popularity ranked in
  let* seo_copy_md :=
    try_except (compose_seo_copy_en text ranked)
      (λ e, ret ("Error generating SEO copy: " +:+ exn_str e)) in
  let* docx_name :=
    try_except
      (let* token := call EvUuid (Return (uuid4_hex w)) in
       let docx_name := "seo-draft-" +:+ token +:+ ".docx" in
       let* saved := markdown_to_docx seo_copy_md ("/tmp/" +:+ docx_name) in
       ret (Some docx_name))
      (λ _, ret None) in
  ret {| language_detected := default JNull (sd_language_detected seo_data);
         primary_topics := default (JArr []) (sd_primary_topics seo_data);
         by_intent := default (JObj []) (sd_by_intent seo_data);
         questions := default (JArr []) (sd_questions seo_data);
         keywords_ranked := keywords_ranked;
         seed_keywords := seeds;
         long_tail_keywords := longtails;
         seo_copy_markdown := seo_copy_md;
         docx_filename := docx_name |}.

(** [upload], from the name and the bytes of the file. *)
Definition upload (filename content : string) : M upload_response :=
  let* emit_temp := call (EvTempWrite content) (Return tt) in
  let name_lower := PyStr.lower filename in
  let* text :=
    (if PyStr.endswith name_lower ".pdf" then extract_text_from_pdf content
     else if PyStr.endswith name_lower ".docx" then
       extract_text_from_docx content
     else raise (HTTPException 400 "Unsupported file type. Use .pdf or .docx"))
  in
  if nonempty (PyStr.strip text) then
    let* seo_data := generate_keywords_from_doc text in
    respond text seo_data
  else raise (HTTPException 422 "No readable text found in the document.").

End pipeline.

(** ** Vocabulary of the statements *)

Section vocabulary.
Context (tpl : templates) (w : world).

(** The query of the batch number [i] failed: it raised, or the data frame
    was missing or empty. *)
Definition batch_failed (i : nat) (group : list string) : Prop :=
  match interest_over_time w i group with
  | Return (Some _) => False
  | _ => True
  end.

(** The scores after the batch number [i], and after the batches from
    number [i] on, as functions of the scores before. *)
Definition group_scores (i : nat) (group : list string)
    (scores : gmap string (option Q)) : gmap string (option Q) :=
  match interest_over_time w i group with
  | Return (Some means) => record_means means group scores
  | _ => set_unknown group scores
  end.

Fixpoint groups_scores (i : nat) (groups : list (list string))
    (scores : gmap string (option Q)) : gmap string (option Q) :=
  match groups with
  | [] => scores
  | group :: rest => groups_scores (S i) rest (group_scores i group scores)
  end.

(** [upload] up to step (1): the extracted text and the parsed reply. *)
Definition analyse (filename content : string) : M (string * seo_dict) :=
  let* saved := call (EvTempWrite content) (Return tt) in
  let name_lower := PyStr.lower filename in
  let* text :=
    (if PyStr.endswith name_lower ".pdf" then extract_text_from_pdf w content
     else if PyStr.endswith name_lower ".docx" then
       extract_text_from_docx w content
     else raise (HTTPException 400 "Unsupported file type. Use .pdf or .docx"))
  in
  if nonempty (PyStr.strip text) then
    let* seo_data := generate_keywords_from_doc tpl w text in
    ret (text, seo_data)
  else raise (HTTPException 422 "No readable text found in the document.").

(** The candidate list of a parsed reply. *)
Definition candidates_of (seo_data : seo_dict) : list string :=
  seeds_of seo_data ++ longtails_of seo_data.

(** The copy of a response: the model's text, or the error line. *)
Definition copy_of (text : string) (ranked : list string) : string :=
  match responses_create w (copy_prompt tpl text ranked) with
  | Return resp => text_of resp
  | Raise e => "Error generating SEO copy: " +:+ exn_str e
  end.

(** The file name of a response: the name of the export, [None] when
    the conversion or the writer raised. *)
Definition docx_name_of (md_text : string) : option string :=
  let docx_name := "seo-draft-" +:+ uuid4_hex w +:+ ".docx" in
  match outcome (markdown_to_docx w md_text ("/tmp/" +:+ docx_name)) with
  | Return _ => Some docx_name
  | Raise _ => None
  end.

(** The response to a request whose scores are [popularity]. *)
Definition response_of (text : string) (seo_data : seo_dict)
    (popularity : gmap string (option Q)) : upload_response :=
  let ranked := rank popularity (candidates_of seo_data) in
  let md := copy_of text ranked in
  {| language_detected := default JNull (sd_language_detected seo_data);
     primary_topics := default (JArr []) (sd_primary_topics seo_data);
     by_intent := default (JObj []) (sd_by_intent seo_data);
     questions := default (JArr []) (sd_questions seo_data);
     keywords_ranked := ranked_entries popularity ranked;
     seed_keywords := seeds_of seo_data;
     long_tail_keywords := longtails_of seo_data;
     seo_copy_markdown := md;
     docx_filename := docx_name_of md |}.

End vocabulary.

(** The keywords sent to the trends service, in the order of the queries. *)
Definition queried (t : list event) : list string :=
  t ≫= λ ev, match ev with EvTrendsQuery group => group | _ => [] end.

(** The line-by-line mapping of the exporter, in the words of its
    description: what block a line becomes. *)
Definition all_space (s : string) : Prop :=
  PyStr.lstrip_by PyStr.is_space s = "".

Definition starts_with_space (s : string) : Prop :=
  match s with
  | String c _ => PyStr.is_space c = true
  | "" => False
  end.

Definition is_bullet (line rest : string) : Prop :=
  ∃ indent gap, all_space indent ∧ all_space gap ∧ gap ≠ "" ∧
    ¬ starts_with_space rest ∧ line = indent +:+ "-" +:+ gap +:+ rest.

Inductive line_becomes : string → block → Prop :=
  | top_heading text :
      line_becomes ("## " +:+ text) (Heading 1 text)
  | sub_heading text :
      line_becomes ("### " +:+ text) (Heading 2 text)
  | bullet_item line rest :
      is_bullet line rest →
      line_becomes line (Paragraph rest (Some "List Bullet"))
  | plain_paragraph line :
      PyStr.startswith line "## " = false →
      PyStr.startswith line "### " = false →
      (∀ rest, ¬ is_bullet line rest) →
      line_becomes line (Paragraph line None).

(** A reply in a code fence: the opening fence with its info string, the
    content, the closing fence, each on lines of their own. [one_line]: no
    line boundary; [lf_lines]: no line boundary but the line feed. *)
Fixpoint str_forall (p : ascii → bool) (s : string) : bool :=
  match s with
  | "" => true
  | String c r => p c && str_forall p r
  end.

Definition one_line (s : string) : bool :=
  str_forall (λ c, negb (PyStr.is_linebreak c)) s.

Definition lf_lines (s : string) : bool :=
  str_forall (λ c, negb (PyStr.is_linebreak c) || Ascii.eqb c PyStr.LF) s.

Definition fence_block (info content : string) : string :=
  "```" +:+ info +:+ String PyStr.LF "" +:+ content +:+ String PyStr.LF "```".

(** The text with every line boundary written as one line feed (a
    carriage return and the line feed after it are one boundary). *)
Fixpoint lf_breaks (s : string) : string :=
  match s with
  | "" => ""
  | String c r =>
      if PyStr.is_linebreak c then
        String PyStr.LF
          match r with
          | String c' r' =>
              if Ascii.eqb c PyStr.CR && Ascii.eqb c' PyStr.LF
              then lf_breaks r' else lf_breaks r
          | "" => ""
          end
      else String c (lf_breaks r)
  end.

(** The sentence of the specification on the cleanup, as it stands: of a
    reply in code fences, with prose before the first opening brace and
    after the last closing brace, the cleanup returns what is between the
    two braces, and them. *)
Definition fenced_replies_isolated : Prop :=
  ∀ before body after,
    before ≠ "" → after ≠ "" →
    PyStr.mem lbrace before = false →
    PyStr.mem rbrace after = false →
    _clean_json_block
      ("```" +:+ before
       +:+ String lbrace (body +:+ String rbrace (after +:+ "```")))
    = String lbrace (body +:+ String rbrace "").

(** A reply of the model: prose, a JSON object over two lines, prose. *)
Definition dquote : ascii := "034"%char.

Definition demo_json_body : string :=
  String dquote ("seed_keywords" +:+ String dquote (": [],"
    +:+ String PyStr.LF (" " +:+ String dquote ("by_intent"
    +:+ String dquote ": {}")))).

Definition demo_reply_pre : string := "Here is the JSON: ".
Definition demo_reply_post : string := " Let me know if it helps.".

(** The lines of the exporter's example. *)
Definition demo_markdown : string :=
  "## A" +:+ String PyStr.LF ("### B" +:+ String PyStr.LF
    ("- item" +:+ String PyStr.LF "plain")).

(** The sentence of the specification on failed batches, as it stands:
    whenever the query of a batch fails, every keyword of the batch is
    unknown in the mapping [trends_popularity] returns. *)
Definition failed_batches_all_unknown (w : world) (keywords : list string)
    : Prop :=
  ∀ i group k,
    chunk keywords 5 !! i = Some group → batch_failed w i group → k ∈ group →
    ∃ scores, outcome (trends_popularity w keywords) = Return scores ∧
      scores !! k = Some None.

(** ** Example requests *)

Definition demo_templates : templates :=
  {| keywords_head := "Analyze: "; keywords_tail := "";
     copy_head := "Keywords: "; copy_mid := " Text: "; copy_tail := "" |}.

Definition demo_taxonomy (seeds longtails : list string) : seo_dict :=
  {| sd_language_detected := Some (JStr "es");
     sd_primary_topics := Some (JArr [JStr "travel"]);
     sd_by_intent := None;
     sd_questions := None;
     sd_seed_keywords := Some seeds;
     sd_long_tail_keywords := Some longtails |}.

(** The characters an XML text may hold, among the first 256: no control
    character but the tabulation, the line feed and the carriage return. *)
Definition xml_char (c : ascii) : bool :=
  let n := PyStr.code c in
  (32 <=? n)%nat || (n =? 9)%nat || (n =? 10)%nat || (n =? 13)%nat.

(** A PDF with text on its first page (a file of another content is a
    scan: its pages give white space only), a model that answers the
    keyword prompt with an empty JSON object in a code fence, a parser that
    returns [taxonomy], a document library that refuses the texts XML
    cannot hold; the trends service and the reply to the copy prompt are
    given. *)
Definition demo_world (taxonomy : seo_dict)
    (trends : nat → list string → result (option (gmap string Q)))
    (copy : result llm_response) : world :=
  {| pdf_pages := λ content,
       if PyStr.startswith content "%PDF-1.7"
       then Return [Some "Quito travel guide"; None]
       else Return [Some "  "; None; Some (String PyStr.LF " ")];
     docx_paragraphs := λ _, Return [" "; ""];
     responses_create := λ prompt,
       if PyStr.startswith prompt "Analyze: "
       then Return {| output_text := Some "```json
{}
```";
                      response_str := "Response()" |}
       else copy;
     json_loads := λ _, Return taxonomy;
     trend_req := Return tt;
     interest_over_time := trends;
     uuid4_hex := "0123abcd";
     docx_add := λ b,
       if str_forall xml_char (block_text b) then Return tt
       else Raise (ExternalError "All strings must be XML compatible");
     docx_save := λ _ _, Return tt |}.

Definition demo_copy : result llm_response :=
  Return {| output_text := Some "## Ecuador"; response_str := "Response()" |}.

(** Seeds [a], [b], [c] in one batch; the service knows [a] and [c]. *)
Definition abc_world : world :=
  demo_world (demo_taxonomy ["a"; "b"; "c"] [])
    (λ _ _, Return (Some (<["a" := 80%Q]> (<["c" := 40%Q]> ∅))))
    demo_copy.

(** Six keywords, the first one twice: the first batch is scored, the
    query of the second batch, which holds the repeated keyword, raises. *)
Definition repeated_keywords : list string := ["a"; "b"; "c"; "d"; "e"; "a"].

Definition repeated_world : world :=
  demo_world (demo_taxonomy ["a"; "b"; "c"; "d"; "e"] ["a"])
    (λ i _, match i with
            | 0 => Return (Some (<["a" := 80%Q]> ∅))
            | _ => Raise (ExternalError "429 Too Many Requests")
            end)
    demo_copy.

(** The copy prompt is refused. *)
Definition quota_world : world :=
  demo_world (demo_taxonomy ["a"; "b"] ["a"; "c"])
    (λ _ _, Return (Some (<["a" := 80%Q]> (<["c" := 40%Q]> ∅))))
    (Raise (ExternalError "insufficient_quota")).

(** A world with another JSON parser and another trends client. *)
Definition with_services (w : world) (parse : string → result seo_dict)
    (client : result unit) : world :=
  {| pdf_pages := pdf_pages w;
     docx_paragraphs := docx_paragraphs w;
     responses_create := responses_create w;
     json_loads := parse;
     trend_req := client;
     interest_over_time := interest_over_time w;
     uuid4_hex := uuid4_hex w;
     docx_add := docx_add w;
     docx_save := docx_save w |}.

(** The reply is no JSON. *)
Definition no_json_world : world :=
  with_services abc_world (λ _, Raise (ExternalError "Expecting value"))
    (Return tt).

(** The trends service refuses the client. *)
Definition no_trends_world : world :=
  with_services abc_world (json_loads abc_world)
    (Raise (ExternalError "429 Too Many Requests")).

(** No keyword in the reply, and no trends service. *)
Definition no_keywords_world : world :=
  with_services abc_world (λ _, Return (demo_taxonomy [] []))
    (Raise (ExternalError "429 Too Many Requests")).

(** The copy has a control character on its second line. *)
Definition control_copy : string :=
  "## Ecuador" +:+ String PyStr.LF ("bad" +:+ String "001"%char "copy").

Definition control_world : world :=
  demo_world (demo_taxonomy ["a"; "b"; "c"] [])
    (λ _ _, Return (Some (<["a" := 80%Q]> (<["c" := 40%Q]> ∅))))
    (Return {| output_text := Some control_copy;
               response_str := "Response()" |}).

(** The writer cannot write. *)
Definition read_only_world : world :=
  {| pdf_pages := pdf_pages abc_world;
     docx_paragraphs := docx_paragraphs abc_world;
     responses_create := responses_create abc_world;
     json_loads := json_loads abc_world;
     trend_req := trend_req abc_world;
     interest_over_time := interest_over_time abc_world;
     uuid4_hex := uuid4_hex abc_world;
     docx_add := docx_add abc_world;
     docx_save := λ _ _, Raise (ExternalError "Permission denied") |}.

(** [c * n] *)
Fixpoint str_repeat (c : ascii) (n : nat) : string :=
  match n with
  | 0 => ""
  | S n' => String c (str_repeat c n')
  end.

(** Sixteen ranked keywords. *)
Definition sixteen_keywords : list string :=
  ["k01"; "k02"; "k03"; "k04"; "k05"; "k06"; "k07"; "k08";
   "k09"; "k10"; "k11"; "k12"; "k13"; "k14"; "k15"; "k16"].

(** ** Vocabulary of the further statements *)

(** The library takes the block: [add_heading], or [add_paragraph],
    returns. The copy is converted when it takes the block of every
    line. *)
Definition accepts (w : world) (b : block) : bool :=
  match docx_add w b with
  | Return _ => true
  | Raise _ => false
  end.

Definition converted (w : world) (md_text : string) : bool :=
  forallb (accepts w) (markdown_blocks md_text).

(** The queries of a trace. *)
Definition is_query (ev : event) : bool :=
  match ev with
  | EvTrendsQuery _ => true
  | _ => false
  end.

(** A page without text: [extract_text()] gave [None] or [""]. *)
Definition no_text (page : option string) : Prop := default "" page = "".

(** The text [upload] extracts from a file: the parser chosen by the name
    returned it. *)
Definition extracted (w : world) (filename content text : string) : Prop :=
  (PyStr.endswith (PyStr.lower filename) ".pdf" = true ∧
   outcome (extract_text_from_pdf w content) = Return text) ∨
  (PyStr.endswith (PyStr.lower filename) ".pdf" = false ∧
   PyStr.endswith (PyStr.lower filename) ".docx" = true ∧
   outcome (extract_text_from_docx w content) = Return text).

(** The prompt of [generate_keywords_from_doc]. *)
Definition keywords_prompt (tpl : templates) (doc_text : string) : string :=
  PyStr.strip (keywords_head tpl +:+ PyStr.str_take 12000 doc_text
               +:+ keywords_tail tpl).

(** The file [upload] exports a copy to. *)
Definition docx_name (w : world) : string :=
  "seo-draft-" +:+ uuid4_hex w +:+ ".docx".

(** The save of the export: there is one when the copy is converted. *)
Definition export_save (w : world) (md_text : string) : list event :=
  if converted w md_text
  then [EvDocxSave ("/tmp/" +:+ docx_name w) (markdown_blocks md_text)]
  else [].

(** A keyword has the score [v] (a number equal to it, or none). *)
Definition same_score (scores : gmap string (option Q)) (v : option Q)
    (k : string) : Prop :=
  match v, dict_get scores k with
  | Some a, Some b => (a == b)%Q
  | None, None => True
  | _, _ => False
  end.

#[global] Instance same_score_dec scores v k : Decision (same_score scores v k).
Proof.
  unfold same_score. destruct v as [a|], (dict_get scores k) as [b|];
    try (right; tauto); [apply Qeq_dec|left; exact I].
Defined.

(** What a block may be: a heading of level 1 or 2, a bullet whose text
    does not start with white space, a plain paragraph. *)
Definition block_shape (b : block) : Prop :=
  match b with
  | Heading level _ => level = 1 ∨ level = 2
  | Paragraph text (Some style) =>
      style = "List Bullet" ∧ ¬ starts_with_space text
  | Paragraph _ None => True
  end.

(** ** Facts about [chunk] *)

Section chunk_facts.
Context {A : Type}.
Implicit Types (l : list A) (n m : nat).

Lemma slice_take_drop l i n : PyList.slice l i (i + n) = take n (drop i l).
Proof. unfold PyList.slice. f_equal. lia. Qed.

Lemma range_len_0 n : 0 < n → PyList.range_len 0 n = 0.
Proof.
  intros Hn. unfold PyList.range_len. apply Nat.div_small. lia.
Qed.

Lemma range_len_step stop n :
  0 < n → 0 < stop →
  PyList.range_len stop n = S (PyList.range_len (stop - n) n).
Proof.
  intros Hn Hs. unfold PyList.range_len.
  destruct (decide (stop ≤ n)%nat) as [Hle|Hgt].
  - replace (stop - n + n - 1) with (n - 1) by lia.
    rewrite (Nat.div_small (n - 1) n) by lia.
    assert (H1 : (n * 1 ≤ stop + n - 1)) by lia.
    assert (H2 : (stop + n - 1 < n * 2)) by lia.
    pose proof (Nat.div_le_lower_bound (stop + n - 1) n 1 ltac:(lia) H1).
    pose proof (Nat.Div0.div_lt_upper_bound (stop + n - 1) n 2 H2).
    lia.
  - replace (stop + n - 1) with ((stop - n + n - 1) + 1 * n)%nat by lia.
    rewrite Nat.div_add by lia. lia.
Qed.

(** The comprehension written as a recursion on the list: the first group
    is the first [n] elements, the rest is the chunking of the remainder. *)
Lemma chunk_nil n : 0 < n → chunk (@nil A) n = [].
Proof.
  intros Hn. unfold chunk, PyList.range0. simpl. by rewrite range_len_0.
Qed.

Lemma chunk_unfold l n :
  0 < n → l ≠ [] → chunk l n = take n l :: chunk (drop n l) n.
Proof.
  intros Hn Hl. unfold chunk, PyList.range0.
  assert (Hlen : (0 < length l)) by (destruct l; simpl; [done|lia]).
  rewrite (range_len_step (length l) n Hn Hlen).
  rewrite length_drop. cbn [seq fmap list_fmap].
  f_equal.
  - rewrite slice_take_drop. by rewrite Nat.mul_0_l, drop_0.
  - rewrite <- seq_shift. change (map S) with (fmap (M:=list) S).
    rewrite <- !list_fmap_compose.
    apply list_fmap_ext. intros _ k _. simpl.
    rewrite !slice_take_drop, drop_drop.
    by replace (S k * n) with (n + k * n) by lia.
Qed.

Lemma chunk_ind n (P : list A → list (list A) → Prop) :
  0 < n →
  P [] [] →
  (∀ l, l ≠ [] → P (drop n l) (chunk (drop n l) n) →
        P l (take n l :: chunk (drop n l) n)) →
  ∀ l, P l (chunk l n).
Proof.
  intros Hn Hnil Hcons l.
  remember (length l) as len eqn:Hlen. revert l Hlen.
  induction len as [len IH] using lt_wf_ind. intros l Hlen.
  destruct (decide (l = [])) as [->|Hne].
  - by rewrite chunk_nil.
  - rewrite chunk_unfold by done. apply Hcons; [done|].
    apply (IH (length (drop n l))); [|done].
    rewrite length_drop. destruct l; simpl in *; [done|lia].
Qed.

End chunk_facts.

Section chunk_properties.
Context {A : Type}.
Implicit Types (l : list A) (n : nat).

Lemma chunk_concat l n : 0 < n → concat (chunk l n) = l.
Proof.
  intros Hn. apply (chunk_ind n (λ l gs, concat gs = l)); [done|done|].
  intros l' _ IH. simpl. rewrite IH. apply take_drop.
Qed.

Lemma chunk_sizes_le l n : 0 < n → Forall (λ g, 0 < length g ≤ n) (chunk l n).
Proof.
  intros Hn.
  apply (chunk_ind n (λ l gs, Forall (λ g, 0 < length g ≤ n) gs));
    [done|constructor|].
  intros l' Hne IH. constructor; [|done].
  rewrite length_take. destruct l'; simpl in *; [done|lia].
Qed.

Lemma chunk_empty_inv l n : 0 < n → chunk l n = [] → l = [].
Proof.
  intros Hn H. destruct (decide (l = [])) as [|Hne]; [done|].
  by rewrite chunk_unfold in H.
Qed.

Lemma chunk_sizes_full l n i g :
  0 < n → chunk l n !! i = Some g → S i < length (chunk l n) → length g = n.
Proof.
  intros Hn. revert i g.
  apply (chunk_ind n (λ l gs, ∀ i g,
           gs !! i = Some g → S i < length gs → length g = n)); [done|done|].
  intros l' Hne IH [|i] g Hg Hi; simpl in *.
  - injection Hg as <-. rewrite length_take.
    destruct (chunk (drop n l') n) as [|g' gs] eqn:Hc; simpl in Hi; [lia|].
    assert (drop n l' ≠ []) as Hd by (intros E; by rewrite E, chunk_nil in Hc).
    assert (length (drop n l') ≠ 0) by (destruct (drop n l'); simpl; done).
    rewrite length_drop in *. lia.
  - apply (IH i g Hg). lia.
Qed.

End chunk_properties.

(** C5. The batching of [trends_popularity], [chunk(keywords, 5)], splits
    the list in order into consecutive groups: their concatenation is the
    list, every group has at most 5 keywords, every group but the last has
    exactly 5, and 13 keywords give groups of sizes 5, 5 and 3. *)
Theorem chunk_batches (keywords : list string) :
  concat (chunk keywords 5) = keywords ∧
  Forall (λ g, length g ≤ 5) (chunk keywords 5) ∧
  (∀ i g, chunk keywords 5 !! i = Some g →
          S i < length (chunk keywords 5) → length g = 5) ∧
  (length keywords = 13 → length <$> chunk keywords 5 = [5; 5; 3]).
Proof.
  split_and!.
  - apply chunk_concat. lia.
  - eapply Forall_impl; [apply chunk_sizes_le; lia|]. simpl. lia.
  - intros i g. apply chunk_sizes_full. lia.
  - intros Hlen.
    do 14 (destruct keywords as [|? keywords]; simpl in Hlen; try lia).
    reflexivity.
Qed.

Lemma chunk_batches_witness :
  length <$> chunk ["k01"; "k02"; "k03"; "k04"; "k05"; "k06"; "k07"; "k08";
                    "k09"; "k10"; "k11"; "k12"; "k13"] 5 = [5; 5; 3].
Proof.
  apply (chunk_batches ["k01"; "k02"; "k03"; "k04"; "k05"; "k06"; "k07";
                        "k08"; "k09"; "k10"; "k11"; "k12"; "k13"]).
  reflexivity.
Defined.

(** ** The request monad *)

Lemma outcome_bind {A B} (m : M A) (f : A → M B) :
  outcome (bind m f) =
  match outcome m with
  | Return a => outcome (f a)
  | Raise e => Raise e
  end.
Proof. destruct m as [t [a|e]]; simpl; [by destruct (f a)|done]. Qed.

Lemma trace_bind {A B} (m : M A) (f : A → M B) :
  trace (bind m f) =
  trace m ++ match outcome m with
             | Return a => trace (f a)
             | Raise _ => []
             end.
Proof.
  destruct m as [t [a|e]]; simpl; [by destruct (f a)|by rewrite app_nil_r].
Qed.

Lemma M_eq {A} (m : M A) : m = (trace m, outcome m).
Proof. by destruct m. Qed.

(** ** The loop of [trends_popularity] *)

Section trends_loop.
Context (w : world).

(** A batch never raises: whatever the service does, the loop body logs
    one query and returns the scores [group_scores] describes. *)
Lemma query_group_eq i group scores :
  query_group w i group scores =
  ([EvTrendsQuery group], Return (group_scores w i group scores)).
Proof.
  unfold query_group, group_scores, call, bind, try_except.
  by destruct (interest_over_time w i group) as [[means|]|e].
Qed.

Lemma query_groups_eq groups : ∀ i scores,
  query_groups w i groups scores =
  (EvTrendsQuery <$> groups, Return (groups_scores w i groups scores)).
Proof.
  induction groups as [|g groups IH]; intros i scores; simpl; [done|].
  rewrite query_group_eq. unfold bind. by rewrite IH.
Qed.

Lemma trends_popularity_eq keywords :
  keywords ≠ [] → trend_req w = Return tt →
  trends_popularity w keywords =
  (EvTrendReq :: (EvTrendsQuery <$> chunk keywords 5),
   Return (groups_scores w 0 (chunk keywords 5) ∅)).
Proof.
  intros Hne Hreq. unfold trends_popularity.
  destruct keywords as [|k ks]; [done|].
  rewrite Hreq, query_groups_eq. reflexivity.
Qed.

Lemma trends_popularity_returns keywords :
  trend_req w = Return tt →
  outcome (trends_popularity w keywords) =
  Return (groups_scores w 0 (chunk keywords 5) ∅).
Proof.
  intros Hreq. destruct (decide (keywords = [])) as [->|Hne]; [done|].
  by rewrite trends_popularity_eq.
Qed.

Lemma queried_queries (groups : list (list string)) :
  queried (EvTrendsQuery <$> groups) = concat groups.
Proof.
  unfold queried. induction groups as [|g gs IH]; simpl; [done|].
  by rewrite <- IH.
Qed.

Lemma queried_app t1 t2 : queried (t1 ++ t2) = queried t1 ++ queried t2.
Proof. unfold queried. apply bind_app. Qed.

Lemma trends_popularity_queried keywords :
  trend_req w = Return tt →
  queried (trace (trends_popularity w keywords)) = keywords.
Proof.
  intros Hreq. destruct (decide (keywords = [])) as [->|Hne]; [done|].
  rewrite trends_popularity_eq by done. simpl.
  change (queried (EvTrendReq :: ?t)) with (queried t).
  rewrite queried_queries. apply chunk_concat. lia.
Qed.

End trends_loop.

(** ** The conversion of the copy *)

Section conversion.
Context (w : world).

Lemma add_line_block doc line : add_line doc line = doc ++ [line_block line].
Proof.
  unfold add_line, line_block, add_heading, add_paragraph.
  destruct (PyStr.startswith line "## "); [done|].
  destruct (PyStr.startswith line "### "); [done|].
  by destruct (bullet_rest line).
Qed.

Lemma markdown_blocks_map md_text :
  markdown_blocks md_text = line_block <$> PyStr.splitlines md_text.
Proof.
  unfold markdown_blocks.
  assert (∀ lines doc,
            foldl add_line doc lines = doc ++ (line_block <$> lines)) as H.
  { induction lines as [|l lines IH]; intros doc; simpl.
    - by rewrite app_nil_r.
    - rewrite IH, add_line_block. by rewrite <- app_assoc. }
  by rewrite H.
Qed.

Lemma foldl_add_line doc lines :
  foldl add_line doc lines = doc ++ (line_block <$> lines).
Proof.
  revert doc. induction lines as [|l lines IH]; intros doc; simpl.
  - by rewrite app_nil_r.
  - rewrite IH, add_line_block. by rewrite <- app_assoc.
Qed.

(** The loop goes through when the library takes every block, and raises
    at the first block it refuses. *)
Lemma add_lines_accepted doc lines :
  forallb (accepts w) (line_block <$> lines) = true →
  add_lines w doc lines = ret (foldl add_line doc lines).
Proof.
  revert doc. induction lines as [|l lines IH]; intros doc Hall; [done|].
  rewrite fmap_cons in Hall. cbn [forallb] in Hall.
  apply andb_true_iff in Hall as [Hl Hall].
  cbn [add_lines foldl]. unfold accepts in Hl.
  destruct (docx_add w (line_block l)); [|done].
  unfold lift, bind. by rewrite IH.
Qed.

Lemma add_lines_refused doc lines :
  forallb (accepts w) (line_block <$> lines) = false →
  ∃ e, add_lines w doc lines = raise e.
Proof.
  revert doc. induction lines as [|l lines IH]; intros doc Hall; [done|].
  rewrite fmap_cons in Hall. cbn [forallb] in Hall.
  cbn [add_lines]. unfold accepts in Hall at 1.
  destruct (docx_add w (line_block l)) as [u|e]; [|by exists e].
  destruct (IH (add_line doc l) Hall) as [e He]. exists e.
  unfold lift, bind. by rewrite He.
Qed.

Lemma markdown_to_docx_converted md_text out_path :
  converted w md_text = true →
  markdown_to_docx w md_text out_path
  = call (EvDocxSave out_path (markdown_blocks md_text))
      (docx_save w out_path (markdown_blocks md_text)).
Proof.
  unfold converted. rewrite markdown_blocks_map. intros Hall.
  unfold markdown_to_docx. rewrite add_lines_accepted by done.
  rewrite foldl_add_line, app_nil_l. unfold ret, bind, call.
  by destruct (docx_save w _ _).
Qed.

Lemma markdown_to_docx_refused md_text out_path :
  converted w md_text = false →
  ∃ e, markdown_to_docx w md_text out_path = raise e.
Proof.
  unfold converted. rewrite markdown_blocks_map. intros Hall.
  destruct (add_lines_refused [] _ Hall) as [e He]. exists e.
  unfold markdown_to_docx. by rewrite He.
Qed.

(** The export of [upload]: the token, then the conversion and the save
    under [try]. *)
Lemma export_eq md_text :
  try_except
    (let* token := call EvUuid (Return (uuid4_hex w)) in
     let docx_name := "seo-draft-" +:+ token +:+ ".docx" in
     let* saved := markdown_to_docx w md_text ("/tmp/" +:+ docx_name) in
     ret (Some docx_name))
    (λ _, ret None)
  = (EvUuid :: export_save w md_text, Return (docx_name_of w md_text)).
Proof.
  unfold export_save, docx_name_of, docx_name, try_except, bind, call, ret.
  cbv zeta.
  destruct (converted w md_text) eqn:Hconv.
  - rewrite markdown_to_docx_converted by done.
    unfold call, outcome. by destruct (docx_save w _ _).
  - destruct (markdown_to_docx_refused _
                ("/tmp/" +:+ "seo-draft-" +:+ uuid4_hex w +:+ ".docx") Hconv)
      as [e ->].
    reflexivity.
Qed.

End conversion.

(** ** The pipeline, step by step *)

Section upload_steps.
Context (tpl : templates) (w : world).

Lemma upload_analyse filename content :
  upload tpl w filename content =
  let* p := analyse tpl w filename content in respond tpl w p.1 p.2.
Proof.
  unfold upload, analyse, bind, call, raise, ret.
  destruct (PyStr.endswith _ ".pdf").
  - destruct (extract_text_from_pdf w content) as [t [text|e]]; [|done].
    destruct (nonempty _); [|done].
    destruct (generate_keywords_from_doc tpl w text) as [t' [d|e]]; [|done].
    simpl. destruct (respond tpl w text d). by rewrite !app_nil_r, <- !app_assoc.
  - destruct (PyStr.endswith _ ".docx"); [|done].
    destruct (extract_text_from_docx w content) as [t [text|e]]; [|done].
    destruct (nonempty _); [|done].
    destruct (generate_keywords_from_doc tpl w text) as [t' [d|e]]; [|done].
    simpl. destruct (respond tpl w text d). by rewrite !app_nil_r, <- !app_assoc.
Qed.

(** Once the scores are there the request is answered: a failure of the
    copy or of the export changes a field and nothing else. *)
Lemma respond_outcome text seo_data popularity :
  outcome (trends_popularity w (candidates_of seo_data)) = Return popularity →
  outcome (respond tpl w text seo_data) =
  Return (response_of tpl w text seo_data popularity).
Proof.
  intros Hpop. unfold respond. fold (candidates_of seo_data).
  rewrite outcome_bind, Hpop.
  rewrite outcome_bind.
  assert (outcome
            (try_except
               (compose_seo_copy_en tpl w text
                  (rank popularity (candidates_of seo_data)))
               (λ e, ret ("Error generating SEO copy: " +:+ exn_str e)))
          = Return (copy_of tpl w text
                      (rank popularity (candidates_of seo_data)))) as ->.
  { unfold copy_of, compose_seo_copy_en, bind, try_except, call, ret.
    by destruct (responses_create w _). }
  by rewrite outcome_bind, export_eq.
Qed.

Lemma respond_queried text seo_data :
  trend_req w = Return tt →
  queried (trace (respond tpl w text seo_data)) = candidates_of seo_data.
Proof.
  intros Hreq. unfold respond. fold (candidates_of seo_data).
  rewrite trace_bind, queried_app, trends_popularity_queried by done.
  rewrite trends_popularity_returns by done.
  rewrite trace_bind, queried_app.
  assert (∀ ranked,
            try_except (compose_seo_copy_en tpl w text ranked)
              (λ e, ret ("Error generating SEO copy: " +:+ exn_str e))
            = ([EvLLM (copy_prompt tpl text ranked)],
               Return (copy_of tpl w text ranked))) as ->.
  { intros ranked.
    unfold copy_of, compose_seo_copy_en, bind, try_except, call, ret.
    by destruct (responses_create w _). }
  cbn [outcome snd]. rewrite trace_bind, export_eq.
  cbn [trace outcome fst snd ret]. rewrite app_nil_r.
  unfold export_save. destruct (converted w _); by rewrite app_nil_r.
Qed.

Lemma respond_trace text seo_data scores :
  outcome (trends_popularity w (candidates_of seo_data)) = Return scores →
  trace (respond tpl w text seo_data)
  = trace (trends_popularity w (candidates_of seo_data)) ++
    [ EvLLM (copy_prompt tpl text (rank scores (candidates_of seo_data)));
      EvUuid ] ++
    export_save w (copy_of tpl w text (rank scores (candidates_of seo_data))).
Proof.
  intros Hscores. unfold respond. fold (candidates_of seo_data).
  rewrite trace_bind, Hscores. f_equal. rewrite trace_bind.
  assert (∀ ranked,
            try_except (compose_seo_copy_en tpl w text ranked)
              (λ e, ret ("Error generating SEO copy: " +:+ exn_str e))
            = ([EvLLM (copy_prompt tpl text ranked)],
               Return (copy_of tpl w text ranked))) as ->.
  { intros ranked.
    unfold copy_of, compose_seo_copy_en, bind, try_except, call, ret.
    by destruct (responses_create w _). }
  cbn [outcome trace fst snd]. rewrite trace_bind, export_eq.
  cbn [trace outcome fst snd ret]. by rewrite app_nil_r.
Qed.

Lemma upload_outcome filename content text seo_data popularity :
  outcome (analyse tpl w filename content) = Return (text, seo_data) →
  outcome (trends_popularity w (candidates_of seo_data)) = Return popularity →
  outcome (upload tpl w filename content) =
  Return (response_of tpl w text seo_data popularity).
Proof.
  intros Ha Hp. rewrite upload_analyse, outcome_bind, Ha. simpl.
  by apply respond_outcome.
Qed.

End upload_steps.

(** ** De-duplication: [list(dict.fromkeys(l))] *)

Section unique.
Implicit Types (l ks : list string) (d : list (string * unit)).

Lemma keys_setitem k d :
  PyDict.keys (PyDict.setitem k tt d) =
  if decide (k ∈ PyDict.keys d) then PyDict.keys d else PyDict.keys d ++ [k].
Proof.
  unfold PyDict.keys. induction d as [|[k' []] d IH]; csimpl.
  - done.
  - destruct (decide (k = k')) as [->|Hne]; csimpl.
    + rewrite decide_True; [done|left].
    + rewrite IH. destruct (decide (k ∈ d.*1)) as [Hin|Hnin].
      * rewrite decide_True; [done|by right].
      * rewrite decide_False; [done|].
        intros [?|?]%elem_of_cons; done.
Qed.

Lemma filter_first_occurrences_in x ks l :
  x ∈ ks →
  filter (λ y, y ∉ ks) (filter (λ y, y ≠ x) l) = filter (λ y, y ∉ ks) l.
Proof.
  intros Hx. rewrite list_filter_filter. apply list_filter_iff.
  intros y. split; [tauto|]. intros Hy. split; [done|]. by intros ->.
Qed.

Lemma filter_first_occurrences_snoc x ks l :
  filter (λ y, y ∉ ks ++ [x]) l = filter (λ y, y ∉ ks) (filter (λ y, y ≠ x) l).
Proof.
  rewrite list_filter_filter. apply list_filter_iff. intros y.
  rewrite elem_of_app, list_elem_of_singleton. tauto.
Qed.

Lemma keys_fromkeys_from l : ∀ d,
  PyDict.keys (foldl (λ d k, PyDict.setitem k tt d) d l) =
  PyDict.keys d ++ filter (λ y, y ∉ PyDict.keys d) (first_occurrences l).
Proof.
  induction l as [|x l IH]; intros d; simpl.
  - by rewrite app_nil_r.
  - rewrite IH, keys_setitem. case_decide as Hx.
    + rewrite filter_cons_False by tauto.
      by rewrite filter_first_occurrences_in.
    + rewrite filter_cons_True by done.
      rewrite filter_first_occurrences_snoc.
      by rewrite <- app_assoc.
Qed.

(** The idiom keeps the first occurrence of every element, in order. *)
Lemma unique_keys_first_occurrences l : unique_keys l = first_occurrences l.
Proof.
  unfold unique_keys, PyDict.fromkeys. rewrite keys_fromkeys_from. simpl.
  induction (first_occurrences l) as [|y ys IH]; [done|].
  rewrite filter_cons_True by apply not_elem_of_nil. by rewrite IH.
Qed.

Lemma elem_of_first_occurrences x l : x ∈ first_occurrences l ↔ x ∈ l.
Proof.
  induction l as [|y l IH]; simpl; [done|].
  rewrite !elem_of_cons, list_elem_of_filter, IH.
  destruct (decide (x = y)); tauto.
Qed.

Lemma NoDup_first_occurrences l : NoDup (first_occurrences l).
Proof.
  induction l as [|y l IH]; simpl; [constructor|].
  constructor; [|by apply NoDup_filter].
  rewrite list_elem_of_filter. tauto.
Qed.

Lemma first_occurrences_sublist l : sublist (first_occurrences l) l.
Proof.
  induction l as [|y l IH]; simpl; [constructor|].
  constructor. etrans; [apply sublist_filter|done].
Qed.

Lemma NoDup_seeds_of data : NoDup (seeds_of data).
Proof.
  unfold seeds_of. rewrite unique_keys_first_occurrences.
  eapply sublist_NoDup; [apply NoDup_first_occurrences|apply sublist_take].
Qed.

Lemma NoDup_longtails_of data : NoDup (longtails_of data).
Proof.
  unfold longtails_of. rewrite unique_keys_first_occurrences.
  eapply sublist_NoDup; [apply NoDup_first_occurrences|apply sublist_take].
Qed.

End unique.

(** ** Ranking: [sorted(candidates, key=sort_key, reverse=True)] *)

Section ranking.
Context {A : Type} (f : A → key).
Implicit Types (x y : A) (l : list A).

Lemma key_le_refl (a : key) : key_le a a = true.
Proof. destruct a as [|q]; simpl; [done|]. apply Qle_bool_iff, Qle_refl. Qed.

Lemma key_le_trans (a b c : key) :
  key_le a b = true → key_le b c = true → key_le a c = true.
Proof.
  destruct a as [|x], b as [|y], c as [|z]; simpl; try done.
  rewrite !Qle_bool_iff. apply Qle_trans.
Qed.

Lemma key_le_total (a b : key) : key_le a b = false → key_le b a = true.
Proof.
  destruct a as [|x], b as [|y]; simpl; try done.
  intros H. apply Qle_bool_iff, Qlt_le_weak, Qnot_le_lt.
  intros Hle. apply Qle_bool_iff in Hle. congruence.
Qed.

Lemma insert_desc_perm x l : insert_desc f x l ≡ₚ x :: l.
Proof.
  induction l as [|y l IH]; simpl; [done|].
  destruct (key_lt (f x) (f y)); [|done].
  rewrite IH. apply Permutation_swap.
Qed.

Lemma sorted_reverse_perm l : sorted_reverse f l ≡ₚ l.
Proof.
  induction l as [|x l IH]; simpl; [done|].
  unfold sorted_reverse in *. simpl. by rewrite insert_desc_perm, IH.
Qed.

Lemma sorted_reverse_length l : length (sorted_reverse f l) = length l.
Proof. by rewrite sorted_reverse_perm. Qed.

(** The keys never increase along the result. *)
Lemma insert_desc_sorted x l :
  StronglySorted (keys_descend f) l → StronglySorted (keys_descend f) (insert_desc f x l).
Proof.
  induction 1 as [|y l Hs IH Hy]; simpl.
  - repeat constructor.
  - unfold key_lt. destruct (key_le (f y) (f x)) eqn:Hyx; simpl.
    + constructor; [by constructor|]. constructor; [done|].
      eapply Forall_impl; [exact Hy|]. intros z Hz. unfold keys_descend in *.
      by eapply key_le_trans.
    + constructor; [done|].
      rewrite insert_desc_perm. constructor; [|done].
      by apply key_le_total.
Qed.

Lemma sorted_reverse_sorted l : StronglySorted (keys_descend f) (sorted_reverse f l).
Proof.
  induction l as [|x l IH]; [constructor|]. by apply insert_desc_sorted.
Qed.

(** Stability: the elements of one key keep the order they had. *)

Lemma insert_desc_stable c x l :
  filter (same_key f c) (insert_desc f x l) = filter (same_key f c) (x :: l).
Proof.
  induction l as [|y l IH]; simpl; [done|].
  unfold key_lt. destruct (key_le (f y) (f x)) eqn:Hyx; simpl; [done|].
  destruct (decide (same_key f c y)) as [Hy|Hy].
  - assert (¬ same_key f c x) as Hx.
    { intros [Hx1 Hx2]. destruct Hy as [Hy1 Hy2].
      rewrite (key_le_trans _ _ _ Hy1 Hx2) in Hyx. done. }
    rewrite (filter_cons_True _ y) by done. rewrite IH.
    rewrite !(filter_cons_False _ x) by done.
    by rewrite filter_cons_True.
  - rewrite (filter_cons_False _ y) by done. rewrite IH.
    rewrite !(filter_cons _ x), !(filter_cons _ y).
    by rewrite (decide_False (P := same_key f c y)).
Qed.

Lemma sorted_reverse_stable c l :
  filter (same_key f c) (sorted_reverse f l) = filter (same_key f c) l.
Proof.
  induction l as [|x l IH]; [done|].
  unfold sorted_reverse in *. simpl. rewrite insert_desc_stable.
  rewrite !(filter_cons _ x). by rewrite IH.
Qed.

End ranking.

(** ** The ranking of [upload] *)

Lemma StronglySorted_lookup {A} (R : A → A → Prop) (l : list A) i j x y :
  StronglySorted R l → i < j → l !! i = Some x → l !! j = Some y → R x y.
Proof.
  intros Hs. revert i j. induction Hs as [|z l Hs IH Hz]; intros i j Hij Hi Hj.
  - done.
  - destruct j as [|j]; [lia|]. destruct i as [|i]; simpl in *.
    + injection Hi as ->. rewrite Forall_forall in Hz.
      apply Hz. by eapply list_elem_of_lookup_2.
    + apply (IH i j); [lia|done|done].
Qed.

Section rank_facts.
Context (scores : gmap string (option Q)).
Implicit Types (candidates : list string) (k : string).

Lemma rank_perm candidates : rank scores candidates ≡ₚ candidates.
Proof. apply sorted_reverse_perm. Qed.

Lemma ranked_entries_keywords ranked :
  keyword <$> ranked_entries scores ranked = ranked.
Proof.
  unfold ranked_entries. rewrite <- list_fmap_compose.
  induction ranked as [|k ks IH]; csimpl; [done|]. by rewrite IH.
Qed.

Lemma ranked_entries_scores ranked :
  Forall (λ e, popularity e = dict_get scores (keyword e))
    (ranked_entries scores ranked).
Proof. unfold ranked_entries. by apply Forall_fmap, Forall_true. Qed.

(** What the order of [rank] is, read on the scores: numbers in
    ascending order, then the keywords without a score. The key negates
    the score and [reverse=True] turns the order once more. *)
Lemma rank_order candidates i j ki kj :
  i < j →
  rank scores candidates !! i = Some ki →
  rank scores candidates !! j = Some kj →
  match dict_get scores ki, dict_get scores kj with
  | Some vi, Some vj => (vi <= vj)%Q
  | None, Some _ => False
  | _, None => True
  end.
Proof.
  intros Hij Hi Hj.
  pose proof (sorted_reverse_sorted (sort_key scores) candidates) as Hs.
  fold (rank scores candidates) in Hs.
  pose proof (StronglySorted_lookup _ _ i j ki kj Hs Hij Hi Hj) as Hk.
  clear Hs. rename Hk into Hs.
  unfold keys_descend, sort_key in Hs.
  destruct (dict_get scores ki) as [vi|], (dict_get scores kj) as [vj|];
    simpl in Hs; try done.
  apply Qle_bool_iff, Qopp_le_compat in Hs.
  by rewrite !Qopp_involutive in Hs.
Qed.

End rank_facts.

(** C1, at the request of the specification's end-to-end example: seeds
    [a], [b], [c], no long-tails, a trends service that scores [a] with 80
    and [c] with 40 and has nothing for [b]. The specification expects
    [a], [c], [b]; [upload] answers [c], [a], [b]: the scored keywords
    come in ascending order of score, the keyword without a score last. *)
Theorem upload_ranks_low_scores_first :
  ∃ r, outcome (upload demo_templates abc_world "guide.pdf" "%PDF-1.7")
       = Return r ∧
    keywords_ranked r =
      [ {| keyword := "c"; popularity := Some 40%Q |};
        {| keyword := "a"; popularity := Some 80%Q |};
        {| keyword := "b"; popularity := None |} ].
Proof. eexists. split; vm_compute; reflexivity. Qed.

Lemma count_NoDup (k : string) (l : list string) :
  NoDup l → k ∈ l → length (filter (λ x, x = k) l) = 1.
Proof.
  induction 1 as [|x l Hx Hl IH]; intros Hk; [by apply elem_of_nil in Hk|].
  destruct (decide (x = k)) as [->|Hne].
  - rewrite filter_cons_True by done. simpl. f_equal.
    apply length_zero_iff_nil. clear IH Hk Hl.
    induction l as [|y l IH]; [done|].
    apply not_elem_of_cons in Hx as [Hy Hl].
    rewrite filter_cons_False by done. by apply IH.
  - rewrite filter_cons_False by done. apply IH.
    by apply elem_of_cons in Hk as [->|Hk].
Qed.

(** C9. In the response of a request that got its scores, [keywords_ranked]
    has one entry per element of the candidate list: its keywords are a
    permutation of the candidates, it is as long, and every entry carries
    the score the mapping has for its keyword ([None] when it has none).
    A keyword of both the seed list and the long-tail list has two
    entries: the two lists are de-duplicated apart. *)
Theorem keywords_ranked_one_per_candidate
    tpl w filename content text seo_data scores :
  outcome (analyse tpl w filename content) = Return (text, seo_data) →
  outcome (trends_popularity w (candidates_of seo_data)) = Return scores →
  ∃ r, outcome (upload tpl w filename content) = Return r ∧
    keyword <$> keywords_ranked r ≡ₚ candidates_of seo_data ∧
    length (keywords_ranked r) = length (candidates_of seo_data) ∧
    Forall (λ e, match scores !! keyword e with
                 | Some score => popularity e = score
                 | None => popularity e = None
                 end)
      (keywords_ranked r) ∧
    (∀ k, k ∈ seeds_of seo_data → k ∈ longtails_of seo_data →
       length (filter (λ x, x = k) (keyword <$> keywords_ranked r)) = 2).
Proof.
  intros Ha Hs. eexists. split; [by eapply upload_outcome|]. simpl.
  assert (keyword <$> ranked_entries scores
            (rank scores (candidates_of seo_data))
          ≡ₚ candidates_of seo_data) as Hperm.
  { rewrite ranked_entries_keywords. apply rank_perm. }
  split_and!.
  - done.
  - rewrite <- (length_fmap keyword). by rewrite Hperm.
  - eapply Forall_impl; [apply ranked_entries_scores|].
    intros e He. unfold dict_get in He.
    by destruct (scores !! keyword e).
  - intros k Hseed Hlong. rewrite Hperm. unfold candidates_of.
    rewrite filter_app, length_app.
    rewrite (count_NoDup k _ (NoDup_seeds_of _) Hseed).
    by rewrite (count_NoDup k _ (NoDup_longtails_of _) Hlong).
Qed.

Lemma keywords_ranked_one_per_candidate_witness :
  ∃ r, outcome (upload demo_templates quota_world "guide.pdf" "%PDF-1.7")
       = Return r ∧
    keyword <$> keywords_ranked r ≡ₚ ["a"; "b"; "a"; "c"] ∧
    (λ e, (keyword e, popularity e)) <$> keywords_ranked r
    = [("c", Some 40%Q); ("a", Some 80%Q); ("a", Some 80%Q); ("b", None)] ∧
    length (filter (λ x, x = "a") (keyword <$> keywords_ranked r)) = 2.
Proof.
  destruct (keywords_ranked_one_per_candidate demo_templates quota_world
              "guide.pdf" "%PDF-1.7" "Quito travel guide"
              (demo_taxonomy ["a"; "b"] ["a"; "c"])
              (<["a" := Some 80%Q]> (<["b" := None]>
                 (<["c" := Some 40%Q]> ∅))))
    as (r & Hr & Hperm & _ & Hscores & Htwice).
  - vm_compute. reflexivity.
  - vm_compute. reflexivity.
  - exists r. split_and!; [done|exact Hperm| |].
    + vm_compute in Hr. injection Hr as <-. reflexivity.
    + apply Htwice; apply (list_elem_of_lookup_2 _ 0); reflexivity.
Defined.

Lemma analyse_queried tpl w filename content :
  queried (trace (analyse tpl w filename content)) = [].
Proof.
  unfold analyse, generate_keywords_from_doc,
      extract_text_from_pdf, extract_text_from_docx, bind, call, lift, raise,
      ret.
  destruct (PyStr.endswith _ ".pdf").
  - destruct (pdf_pages w content) as [pages|e]; [|done].
    destruct (nonempty _); [|done].
    destruct (responses_create w _) as [resp|e]; [|done].
    by destruct (json_loads w _).
  - destruct (PyStr.endswith _ ".docx"); [|done].
    destruct (docx_paragraphs w content) as [pages|e]; [|done].
    destruct (nonempty _); [|done].
    destruct (responses_create w _) as [resp|e]; [|done].
    by destruct (json_loads w _).
Qed.

(** C6. For the taxonomy the synthesizer returned, the keywords sent to the
    trends service are the seed list followed by the long-tail list, each
    one first reduced to the first occurrences of its elements, in order,
    and then cut after 15 elements; the response returns the two lists so
    reduced and cut as [seed_keywords] and [long_tail_keywords]. *)
Theorem upload_candidates tpl w filename content text seo_data :
  outcome (analyse tpl w filename content) = Return (text, seo_data) →
  trend_req w = Return tt →
  let seeds :=
    take 15 (first_occurrences (default [] (sd_seed_keywords seo_data))) in
  let longtails :=
    take 15 (first_occurrences (default [] (sd_long_tail_keywords seo_data))) in
  queried (trace (upload tpl w filename content)) = seeds ++ longtails ∧
  ∃ r, outcome (upload tpl w filename content) = Return r ∧
    seed_keywords r = seeds ∧ long_tail_keywords r = longtails.
Proof.
  intros Ha Hreq seeds longtails.
  assert (seeds_of seo_data = seeds) as Hseeds
    by (unfold seeds_of; by rewrite unique_keys_first_occurrences).
  assert (longtails_of seo_data = longtails) as Hlong
    by (unfold longtails_of; by rewrite unique_keys_first_occurrences).
  split.
  - rewrite upload_analyse, trace_bind, queried_app, Ha. simpl.
    rewrite (respond_queried tpl w text seo_data Hreq).
    unfold candidates_of. rewrite Hseeds, Hlong.
    by rewrite analyse_queried.
  - eexists. split.
    + eapply upload_outcome; [done|]. by apply trends_popularity_returns.
    + by simpl.
Qed.

Lemma upload_candidates_witness :
  queried (trace (upload demo_templates repeated_world "guide.pdf" "%PDF-1.7"))
  = ["a"; "b"; "c"; "d"; "e"] ++ ["a"] ∧
  ∃ r, outcome (upload demo_templates repeated_world "guide.pdf" "%PDF-1.7")
       = Return r ∧
    seed_keywords r = ["a"; "b"; "c"; "d"; "e"] ∧ long_tail_keywords r = ["a"].
Proof.
  apply (upload_candidates demo_templates repeated_world "guide.pdf"
           "%PDF-1.7" "Quito travel guide"
           (demo_taxonomy ["a"; "b"; "c"; "d"; "e"] ["a"])).
  - vm_compute. reflexivity.
  - reflexivity.
Defined.

(** C8. When a request has reached the composition of the copy and the
    language model raises there, the request is answered all the same:
    [seo_copy_markdown] is the line "Error generating SEO copy: " followed
    by the text of the exception, and the topics, intents, questions,
    keyword lists and ranking are the ones computed before. *)
Theorem upload_survives_copy_failure
    tpl w filename content text seo_data scores e :
  outcome (analyse tpl w filename content) = Return (text, seo_data) →
  outcome (trends_popularity w (candidates_of seo_data)) = Return scores →
  responses_create w
    (copy_prompt tpl text (rank scores (candidates_of seo_data))) = Raise e →
  ∃ r, outcome (upload tpl w filename content) = Return r ∧
    seo_copy_markdown r = "Error generating SEO copy: " +:+ exn_str e ∧
    language_detected r = default JNull (sd_language_detected seo_data) ∧
    primary_topics r = default (JArr []) (sd_primary_topics seo_data) ∧
    by_intent r = default (JObj []) (sd_by_intent seo_data) ∧
    questions r = default (JArr []) (sd_questions seo_data) ∧
    keywords_ranked r =
      ranked_entries scores (rank scores (candidates_of seo_data)) ∧
    seed_keywords r = seeds_of seo_data ∧
    long_tail_keywords r = longtails_of seo_data.
Proof.
  intros Ha Hs He. eexists. split; [by eapply upload_outcome|]. simpl.
  unfold copy_of. rewrite He. by split_and!.
Qed.

Lemma upload_survives_copy_failure_witness :
  ∃ r, outcome (upload demo_templates quota_world "guide.pdf" "%PDF-1.7")
       = Return r ∧
    seo_copy_markdown r = "Error generating SEO copy: insufficient_quota" ∧
    keywords_ranked r =
      [ {| keyword := "c"; popularity := Some 40%Q |};
        {| keyword := "a"; popularity := Some 80%Q |};
        {| keyword := "a"; popularity := Some 80%Q |};
        {| keyword := "b"; popularity := None |} ].
Proof.
  destruct (upload_survives_copy_failure demo_templates quota_world
              "guide.pdf" "%PDF-1.7" "Quito travel guide"
              (demo_taxonomy ["a"; "b"] ["a"; "c"])
              (<["a" := Some 80%Q]> (<["b" := None]>
                 (<["c" := Some 40%Q]> ∅)))
              (ExternalError "insufficient_quota"))
    as (r & Hr & Hcopy & _ & _ & _ & _ & Hranked & _).
  - vm_compute. reflexivity.
  - vm_compute. reflexivity.
  - vm_compute. reflexivity.
  - exists r. split_and!; [done|exact Hcopy|].
    rewrite Hranked. vm_compute. reflexivity.
Defined.

(** C10. For the empty keyword list [trends_popularity] returns the empty
    mapping at once: no trends client is constructed and no query is
    sent, whatever the service would have done. *)
Theorem trends_popularity_empty (w : world) :
  trends_popularity w [] = ([], Return ∅).
Proof. reflexivity. Qed.

(** ** Failed batches *)

Section failed_batches.
Context (w : world).
Implicit Types (scores : gmap string (option Q)) (group : list string).

Lemma setdefault_lookup k v scores k' :
  setdefault k v scores !! k' =
  if decide (k = k') then Some (default v (scores !! k)) else scores !! k'.
Proof.
  unfold setdefault. destruct (scores !! k) as [x|] eqn:Hk; simpl.
  - case_decide as Heq; [by subst|done].
  - rewrite lookup_insert. by case_decide.
Qed.

Lemma set_unknown_lookup group : ∀ scores k,
  set_unknown group scores !! k =
  if decide (k ∈ group) then Some (default None (scores !! k))
  else scores !! k.
Proof.
  unfold set_unknown.
  induction group as [|x group IH]; intros scores k.
  - by rewrite decide_False by apply not_elem_of_nil.
  - cbn [foldl]. rewrite IH, !setdefault_lookup.
    destruct (decide (x = k)) as [->|Hne].
    + rewrite (decide_True (P := k ∈ k :: group)) by left.
      by case_decide.
    + destruct (decide (k ∈ group)) as [Hin|Hnin].
      * by rewrite decide_True by by right.
      * rewrite decide_False; [done|].
        intros [?|?]%elem_of_cons; done.
Qed.

Lemma record_means_lookup_notin means group : ∀ scores k,
  k ∉ group → record_means means group scores !! k = scores !! k.
Proof.
  unfold record_means.
  induction group as [|x group IH]; intros scores k Hk; simpl; [done|].
  apply not_elem_of_cons in Hk as [Hne Hk].
  rewrite IH by done. by rewrite lookup_insert_ne.
Qed.

Lemma record_means_is_Some means group : ∀ scores k,
  is_Some (scores !! k) → is_Some (record_means means group scores !! k).
Proof.
  unfold record_means.
  induction group as [|x group IH]; intros scores k Hk; simpl; [done|].
  apply IH. rewrite lookup_insert. by case_decide.
Qed.

Lemma set_unknown_subseteq group scores : scores ⊆ set_unknown group scores.
Proof.
  apply map_subseteq_spec. intros k v Hk. rewrite set_unknown_lookup.
  case_decide; by rewrite Hk.
Qed.

Lemma group_scores_failed i group scores :
  batch_failed w i group →
  group_scores w i group scores = set_unknown group scores.
Proof.
  unfold batch_failed, group_scores.
  by destruct (interest_over_time w i group) as [[means|]|e].
Qed.

Lemma group_scores_is_Some i group scores k :
  is_Some (scores !! k) → is_Some (group_scores w i group scores !! k).
Proof.
  intros Hk. unfold group_scores.
  destruct (interest_over_time w i group) as [[means|]|e];
    [by apply record_means_is_Some| |];
    rewrite set_unknown_lookup; case_decide; done.
Qed.

Lemma group_scores_other i group scores k :
  k ∉ group → group_scores w i group scores !! k = scores !! k.
Proof.
  intros Hk. unfold group_scores.
  destruct (interest_over_time w i group) as [[means|]|e];
    [by apply record_means_lookup_notin| |];
    rewrite set_unknown_lookup; by rewrite decide_False.
Qed.

(** A keyword is not known yet: it has no entry, or the entry [None]. *)
Lemma group_scores_not_known i group scores k :
  (k ∈ group → batch_failed w i group) →
  scores !! k = None ∨ scores !! k = Some None →
  (group_scores w i group scores !! k = None ∨
   group_scores w i group scores !! k = Some None) ∧
  (scores !! k = Some None ∨ k ∈ group →
   group_scores w i group scores !! k = Some None).
Proof.
  intros Hfail Hk. destruct (decide (k ∈ group)) as [Hin|Hnin].
  - rewrite group_scores_failed by auto. rewrite set_unknown_lookup.
    rewrite decide_True by done.
    destruct Hk as [-> | ->]; simpl; auto.
  - rewrite group_scores_other by done. split; [done|].
    intros [?|?]; done.
Qed.

Lemma groups_scores_not_known k groups : ∀ i scores,
  (∀ j g, groups !! j = Some g → k ∈ g → batch_failed w (i + j) g) →
  scores !! k = None ∨ scores !! k = Some None →
  (scores !! k = Some None ∨ ∃ j g, groups !! j = Some g ∧ k ∈ g) →
  groups_scores w i groups scores !! k = Some None.
Proof.
  induction groups as [|g groups IH]; intros i scores Hfail Hk Hin; simpl.
  - destruct Hin as [?|(j & g & Hj & _)]; done.
  - assert (k ∈ g → batch_failed w i g) as Hg.
    { intros Hkg. specialize (Hfail 0 g eq_refl Hkg).
      by rewrite Nat.add_0_r in Hfail. }
    destruct (group_scores_not_known i g scores k Hg Hk) as [Hk' Hnone].
    apply IH; [|done|].
    + intros j g' Hj Hkg'. specialize (Hfail (S j) g' Hj Hkg').
      by rewrite Nat.add_succ_r in Hfail.
    + destruct Hin as [Hs|(j & g' & Hj & Hkg')]; [left; auto|].
      destruct j as [|j]; simpl in Hj.
      * injection Hj as <-. left. auto.
      * right. eauto.
Qed.

Lemma groups_scores_is_Some k groups : ∀ i scores,
  (is_Some (scores !! k) ∨ ∃ j g, groups !! j = Some g ∧ k ∈ g) →
  is_Some (groups_scores w i groups scores !! k).
Proof.
  induction groups as [|g groups IH]; intros i scores Hin; simpl.
  - destruct Hin as [?|(j & g & Hj & _)]; done.
  - apply IH. destruct Hin as [Hs|(j & g' & Hj & Hkg')].
    + left. by apply group_scores_is_Some.
    + destruct j as [|j]; simpl in Hj; [|right; eauto].
      injection Hj as <-. left. unfold group_scores.
      destruct (interest_over_time w i g) as [[means|]|e].
      * unfold record_means. clear -Hkg'.
        revert scores. induction g as [|x g IHg]; intros scores;
          [by apply elem_of_nil in Hkg'|]. simpl.
        apply elem_of_cons in Hkg' as [->|Hkg'].
        -- apply (record_means_is_Some means g). by rewrite lookup_insert_eq.
        -- by apply IHg.
      * rewrite set_unknown_lookup. by rewrite decide_True.
      * rewrite set_unknown_lookup. by rewrite decide_True.
Qed.

End failed_batches.

(** C2, as the specification has it, fails on a keyword that is in two
    batches: the first batch scores [a] with 80, the query of the second
    batch, [[a]], raises, and [a] keeps its 80. *)
Lemma failed_batch_keeps_known_score :
  ¬ failed_batches_all_unknown repeated_world repeated_keywords.
Proof.
  intros H. destruct (H 1 ["a"] "a") as (scores & Hret & Hk).
  - reflexivity.
  - exact I.
  - set_solver.
  - vm_compute in Hret. injection Hret as <-. vm_compute in Hk. done.
Qed.

(** C2, amended. When the trends client is there and the query of a batch
    fails (it raises, or the frame is missing or empty),
    [trends_popularity] returns all the same; every keyword of the batch
    has an entry in the mapping it returns, and the entry is [None] when
    every batch that holds the keyword failed; the loop body for the
    failed batch returns too and leaves all the entries recorded so far
    as they were. *)
Theorem failed_batch_isolated w keywords i group :
  trend_req w = Return tt →
  chunk keywords 5 !! i = Some group →
  batch_failed w i group →
  (∃ scores, outcome (trends_popularity w keywords) = Return scores ∧
     ∀ k, k ∈ group →
       is_Some (scores !! k) ∧
       ((∀ j g, chunk keywords 5 !! j = Some g → k ∈ g → batch_failed w j g) →
        scores !! k = Some None)) ∧
  (∀ before, ∃ after,
     query_group w i group before = ([EvTrendsQuery group], Return after) ∧
     before ⊆ after ∧
     ∀ k, k ∈ group → after !! k = Some (default None (before !! k))).
Proof.
  intros Hreq Hi Hfail. split.
  - eexists. split; [by apply trends_popularity_returns|].
    intros k Hk. split.
    + apply groups_scores_is_Some. right. eauto.
    + intros Hall. apply groups_scores_not_known.
      * intros j g. by apply Hall.
      * left. apply lookup_empty.
      * right. eauto.
  - intros before. eexists. split; [apply query_group_eq|].
    rewrite group_scores_failed by done. split.
    + apply set_unknown_subseteq.
    + intros k Hk. rewrite set_unknown_lookup. by rewrite decide_True.
Qed.

Lemma failed_batch_isolated_witness :
  ∃ scores,
    outcome (trends_popularity repeated_world ["a"; "b"; "c"; "d"; "e"; "f"])
    = Return scores ∧
    scores !! "f" = Some None ∧ scores !! "a" = Some (Some 80%Q).
Proof.
  destruct (failed_batch_isolated repeated_world
              ["a"; "b"; "c"; "d"; "e"; "f"] 1 ["f"])
    as [(scores & Hret & Hgroup) _].
  - reflexivity.
  - reflexivity.
  - exact I.
  - exists scores. split; [done|]. split.
    + apply Hgroup; [set_solver|].
      intros [|[|j]] g Hj Hg; vm_compute in Hj; [| |done].
      * injection Hj as <-. set_solver.
      * exact I.
    + vm_compute in Hret. injection Hret as <-. vm_compute. reflexivity.
Defined.

(** ** Rejected uploads *)

(** C3. A file whose lower-cased name ends neither in [.pdf] nor in [.docx]
    is refused with the client error 400 "Unsupported file type" when
    nothing but the temporary copy has been written: no parser, model or
    trends call. A supported file whose extracted text is blank once its
    white space is trimmed is refused with the client error 422 "No
    readable text", and the request has called neither the language model
    nor the trends service. *)
Theorem upload_rejects tpl w filename content :
  (PyStr.endswith (PyStr.lower filename) ".pdf" = false →
   PyStr.endswith (PyStr.lower filename) ".docx" = false →
   upload tpl w filename content =
   ([EvTempWrite content],
    Raise (HTTPException 400 "Unsupported file type. Use .pdf or .docx"))) ∧
  (∀ text,
     (PyStr.endswith (PyStr.lower filename) ".pdf" = true ∧
      outcome (extract_text_from_pdf w content) = Return text) ∨
     (PyStr.endswith (PyStr.lower filename) ".pdf" = false ∧
      PyStr.endswith (PyStr.lower filename) ".docx" = true ∧
      outcome (extract_text_from_docx w content) = Return text) →
     PyStr.strip text = "" →
     outcome (upload tpl w filename content) =
     Raise (HTTPException 422 "No readable text found in the document.") ∧
     Forall (λ ev, is_llm_or_trends ev = false)
       (trace (upload tpl w filename content))).
Proof.
  split.
  - intros Hpdf Hdocx. unfold upload. by rewrite Hpdf, Hdocx.
  - intros text Hext Hblank. unfold upload.
    destruct Hext as [[Hpdf Hext]|(Hpdf & Hdocx & Hext)].
    + rewrite Hpdf. unfold extract_text_from_pdf, bind, call, ret in *.
      destruct (pdf_pages w content) as [pages|e]; simpl in Hext; [|done].
      injection Hext as ->. rewrite Hblank. simpl.
      split; [done|]. by repeat constructor.
    + rewrite Hpdf, Hdocx.
      unfold extract_text_from_docx, bind, call, ret in *.
      destruct (docx_paragraphs w content) as [pars|e]; simpl in Hext; [|done].
      injection Hext as ->. rewrite Hblank. simpl.
      split; [done|]. by repeat constructor.
Qed.

Lemma upload_rejects_witness :
  upload demo_templates abc_world "notes.TXT" "hello" =
  ([EvTempWrite "hello"],
   Raise (HTTPException 400 "Unsupported file type. Use .pdf or .docx")) ∧
  outcome (upload demo_templates abc_world "Scan.PDF" "%PDF-1.4") =
  Raise (HTTPException 422 "No readable text found in the document.") ∧
  Forall (λ ev, is_llm_or_trends ev = false)
    (trace (upload demo_templates abc_world "Scan.PDF" "%PDF-1.4")).
Proof.
  split.
  - apply (upload_rejects demo_templates abc_world "notes.TXT" "hello");
      reflexivity.
  - apply (upload_rejects demo_templates abc_world "Scan.PDF" "%PDF-1.4")
      with (text := String " " (String " " (String PyStr.LF
                      (String PyStr.LF " ")))).
    + left. split; reflexivity.
    + reflexivity.
Defined.

(** ** Strings *)

Section strings.
Implicit Types (s t pre post : string) (c a : ascii) (p : ascii → bool).

Lemma str_app_cons c s t : String c s +:+ t = String c (s +:+ t).
Proof. reflexivity. Qed.

Lemma str_app_nil_l s : "" +:+ s = s.
Proof. reflexivity. Qed.

Lemma str_app_nil_r s : s +:+ "" = s.
Proof. induction s as [|c s IH]; [done|]. by rewrite str_app_cons, IH. Qed.

Lemma str_app_assoc s t u : (s +:+ t) +:+ u = s +:+ t +:+ u.
Proof. induction s as [|c s IH]; [done|]. by rewrite !str_app_cons, IH. Qed.

Lemma str_length_app s t :
  String.length (s +:+ t) = String.length s + String.length t.
Proof. induction s as [|c s IH]; [done|]. rewrite str_app_cons. simpl. lia. Qed.

Lemma str_drop_app s t : PyStr.str_drop (String.length s) (s +:+ t) = t.
Proof. induction s as [|c s IH]; [by destruct t|]. by rewrite str_app_cons. Qed.

Lemma str_take_app s t : PyStr.str_take (String.length s) (s +:+ t) = s.
Proof.
  induction s as [|c s IH]; [by destruct t|].
  rewrite str_app_cons. simpl. by rewrite IH.
Qed.

Lemma slice_middle pre s post :
  PyStr.slice (pre +:+ s +:+ post) (String.length pre)
    (String.length pre + String.length s) = s.
Proof.
  unfold PyStr.slice. rewrite str_drop_app.
  replace (String.length pre + String.length s - String.length pre)
    with (String.length s) by lia.
  apply str_take_app.
Qed.

Lemma find_ge c s : (-1 ≤ PyStr.find c s)%Z.
Proof.
  induction s as [|a s IH]; simpl; [done|].
  destruct (Ascii.eqb a c); [done|]. destruct (_ =? _)%Z; lia.
Qed.

Lemma rfind_ge c s : (-1 ≤ PyStr.rfind c s)%Z.
Proof.
  induction s as [|a s IH]; simpl; [done|].
  destruct (_ =? _)%Z; [by destruct (Ascii.eqb a c)|lia].
Qed.

(** [find] gives the place of the first occurrence. *)
Lemma find_first c pre t :
  PyStr.mem c pre = false →
  PyStr.find c (pre +:+ String c t) = Z.of_nat (String.length pre).
Proof.
  induction pre as [|a pre IH]; intros Hmem.
  - rewrite str_app_nil_l. simpl. by rewrite Ascii.eqb_refl.
  - simpl in Hmem. apply orb_false_iff in Hmem as [Hca Hmem].
    rewrite str_app_cons. cbn [PyStr.find]. rewrite Ascii.eqb_sym, Hca.
    rewrite IH by done.
    destruct (Z.eqb_spec (Z.of_nat (String.length pre)) (-1)); [lia|].
    cbn [String.length]. lia.
Qed.

Lemma rfind_absent c s : PyStr.mem c s = false → PyStr.rfind c s = (-1)%Z.
Proof.
  induction s as [|a s IH]; intros Hmem; [done|].
  simpl in Hmem. apply orb_false_iff in Hmem as [Hca Hmem].
  simpl. rewrite IH by done. simpl. by rewrite Ascii.eqb_sym, Hca.
Qed.

(** [rfind] gives the place of the last occurrence. *)
Lemma rfind_last c s post :
  PyStr.mem c post = false →
  PyStr.rfind c (s +:+ String c post) = Z.of_nat (String.length s).
Proof.
  intros Hmem. induction s as [|a s IH].
  - rewrite str_app_nil_l. simpl. rewrite rfind_absent by done. simpl.
    by rewrite Ascii.eqb_refl.
  - rewrite str_app_cons. cbn [PyStr.rfind]. rewrite IH.
    destruct (Z.eqb_spec (Z.of_nat (String.length s)) (-1)); [lia|].
    cbn [String.length]. lia.
Qed.

End strings.

(** ** Code fences *)

Section fences.
Implicit Types (s t : string) (c a : ascii) (p q : ascii → bool).

Lemma lstrip_by_stop p c s t :
  p c = false →
  PyStr.lstrip_by p (s +:+ String c t) = PyStr.lstrip_by p s +:+ String c t.
Proof.
  intros Hc. induction s as [|a s IH].
  - rewrite str_app_nil_l. simpl. by rewrite Hc.
  - rewrite str_app_cons. simpl. destruct (p a); [done|].
    by rewrite str_app_cons.
Qed.

Lemma str_forall_lstrip q p s :
  str_forall q s = true → str_forall q (PyStr.lstrip_by p s) = true.
Proof.
  induction s as [|a s IH]; [done|]. simpl. intros [Ha Hs]%andb_true_iff.
  destruct (p a); [auto|]. simpl. by rewrite Ha, Hs.
Qed.

Lemma rstrip_by_all p t : str_forall p t = true → PyStr.rstrip_by p t = "".
Proof.
  induction t as [|a t IH]; [done|]. simpl. intros [Ha Ht]%andb_true_iff.
  by rewrite IH, Ha.
Qed.

Lemma rstrip_by_drop p s t :
  str_forall p t = true → PyStr.rstrip_by p (s +:+ t) = PyStr.rstrip_by p s.
Proof.
  intros Ht. induction s as [|a s IH].
  - rewrite str_app_nil_l. by apply rstrip_by_all.
  - rewrite str_app_cons. simpl. by rewrite IH.
Qed.

Lemma rstrip_by_keep p s c :
  p c = false → PyStr.rstrip_by p (s +:+ String c "") = s +:+ String c "".
Proof.
  intros Hc. induction s as [|a s IH].
  - rewrite str_app_nil_l. simpl. by rewrite Hc.
  - rewrite str_app_cons. simpl. rewrite IH.
    by destruct s.
Qed.

Lemma splitlines_cons c s :
  PyStr.splitlines (String c s) =
  if PyStr.is_linebreak c then
    "" :: match s with
          | String c' s' =>
              if Ascii.eqb c PyStr.CR && Ascii.eqb c' PyStr.LF
              then PyStr.splitlines s' else PyStr.splitlines s
          | "" => []
          end
  else PyStr.cons_head c (PyStr.splitlines s).
Proof. reflexivity. Qed.

Lemma splitlines_first_line s t :
  one_line s = true →
  PyStr.splitlines (s +:+ String PyStr.LF t) = s :: PyStr.splitlines t.
Proof.
  unfold one_line. induction s as [|a s IH]; intros Hs.
  - rewrite str_app_nil_l. by destruct t.
  - simpl in Hs. apply andb_true_iff in Hs as [Ha Hs].
    rewrite str_app_cons, splitlines_cons.
    apply negb_true_iff in Ha. rewrite Ha. by rewrite IH.
Qed.

Lemma splitlines_nonempty c s : PyStr.splitlines (String c s) ≠ [].
Proof.
  rewrite splitlines_cons. destruct (PyStr.is_linebreak c); [done|].
  by destruct (PyStr.splitlines s).
Qed.

Lemma join_cons_cons sep l l' ls :
  PyStr.join sep (l :: l' :: ls) = l +:+ sep +:+ PyStr.join sep (l' :: ls).
Proof. reflexivity. Qed.

Lemma join_cons_head sep c ls :
  ls ≠ [] →
  PyStr.join sep (PyStr.cons_head c ls) = String c (PyStr.join sep ls).
Proof. intros Hls. destruct ls as [|l [|l' ls]]; done. Qed.

(** Splitting at line feeds and joining with line feeds gives the text
    back. *)
Lemma join_splitlines s :
  lf_lines s = true →
  PyStr.join (String PyStr.LF "")
    (PyStr.splitlines (s +:+ String PyStr.LF "")) = s.
Proof.
  unfold lf_lines. induction s as [|a s IH]; intros Hs; [done|].
  simpl in Hs. apply andb_true_iff in Hs as [Ha Hs]. specialize (IH Hs).
  rewrite str_app_cons, splitlines_cons.
  destruct (PyStr.is_linebreak a) eqn:Hbreak.
  - simpl in Ha. apply Ascii.eqb_eq in Ha as ->.
    destruct (s +:+ String PyStr.LF "") as [|c' r'] eqn:Hr.
    { by destruct s. }
    change (Ascii.eqb PyStr.LF PyStr.CR && Ascii.eqb c' PyStr.LF) with false.
    cbv iota.
    destruct (PyStr.splitlines (String c' r')) as [|l ls] eqn:Hl.
    { by apply splitlines_nonempty in Hl. }
    rewrite join_cons_cons, IH. reflexivity.
  - rewrite join_cons_head; [by rewrite IH|].
    destruct s; apply splitlines_nonempty.
Qed.

Lemma str_app_empty s t : s +:+ t = "" → t = "".
Proof. destruct s; [done|]. by rewrite str_app_cons. Qed.

Lemma rstrip_by_keep_app p s t :
  PyStr.rstrip_by p t = t → t ≠ "" → PyStr.rstrip_by p (s +:+ t) = s +:+ t.
Proof.
  intros Ht Hne. induction s as [|a s IH]; [done|].
  rewrite str_app_cons. simpl. rewrite IH.
  destruct (s +:+ t) eqn:Hst; [|done].
  by apply str_app_empty in Hst.
Qed.

(** A fenced reply, bracketed: three back-ticks, the lines between the
    fences, three back-ticks. *)
Lemma fence_block_eq info content :
  fence_block info content =
  "```" +:+ (info +:+ String PyStr.LF (content +:+ String PyStr.LF "")) +:+ "```".
Proof.
  unfold fence_block. f_equal. rewrite str_app_assoc. f_equal.
  change (String PyStr.LF (content +:+ String PyStr.LF "```") =
          String PyStr.LF ((content +:+ String PyStr.LF "") +:+ "```")).
  by rewrite str_app_assoc.
Qed.

Lemma strip_bracketed s : PyStr.strip ("```" +:+ s +:+ "```") = "```" +:+ s +:+ "```".
Proof.
  unfold PyStr.strip, PyStr.strip_by.
  replace (PyStr.lstrip_by PyStr.is_space ("```" +:+ s +:+ "```"))
    with (("```" +:+ s) +:+ "```") by (by rewrite str_app_assoc).
  rewrite rstrip_by_keep_app by done. apply str_app_assoc.
Qed.

Lemma rstrip_by_stop p c s t :
  p c = false →
  PyStr.rstrip_by p (s +:+ String c t) = s +:+ String c (PyStr.rstrip_by p t).
Proof.
  intros Hc. induction s as [|a s IH].
  - rewrite !str_app_nil_l. simpl. rewrite Hc.
    by destruct (PyStr.rstrip_by p t).
  - rewrite !str_app_cons. simpl. rewrite IH. by destruct s.
Qed.

Lemma strip_ticks_bracketed info content :
  one_line info = true →
  PyStr.strip_chars "`"
    ("```" +:+ (info +:+ String PyStr.LF (content +:+ String PyStr.LF ""))
     +:+ "```") =
  PyStr.lstrip_by (λ c, PyStr.mem c "`") info
    +:+ String PyStr.LF (content +:+ String PyStr.LF "").
Proof.
  intros Hinfo. unfold PyStr.strip_chars, PyStr.strip_by.
  change (PyStr.lstrip_by ?p ("```" +:+ ?x)) with (PyStr.lstrip_by p x).
  rewrite (str_app_assoc info), str_app_cons.
  rewrite lstrip_by_stop by done.
  rewrite rstrip_by_stop by done.
  rewrite rstrip_by_drop by done.
  by rewrite rstrip_by_keep.
Qed.

Lemma startswith_ticks s : PyStr.startswith ("```" +:+ s) "```" = true.
Proof. reflexivity. Qed.

(** The fences of a fenced reply go, and its content stays as it is. *)
Lemma fenced_fence_block info content :
  one_line info = true → lf_lines content = true →
  fenced (fence_block info content) = content.
Proof.
  intros Hinfo Hcontent. unfold fenced. cbv zeta.
  rewrite fence_block_eq, strip_bracketed, startswith_ticks.
  rewrite strip_ticks_bracketed by done.
  rewrite splitlines_first_line by by apply str_forall_lstrip.
  simpl tail. by apply join_splitlines.
Qed.

End fences.

(** ** The exporter, line by line *)

Section exporter.
Implicit Types (s t line rest : string) (c a : ascii) (p : ascii → bool).

Lemma startswith_split s pre :
  PyStr.startswith s pre = true →
  s = pre +:+ PyStr.str_drop (String.length pre) s.
Proof.
  revert s. induction pre as [|a pre IH]; intros s Hs; [done|].
  destruct s as [|b s]; [done|]. simpl in Hs.
  destruct (Ascii.eqb_spec a b) as [->|]; [|done].
  rewrite str_app_cons. simpl. by rewrite <- IH.
Qed.

Lemma lstrip_by_split p s :
  ∃ ws, s = ws +:+ PyStr.lstrip_by p s ∧ PyStr.lstrip_by p ws = "".
Proof.
  induction s as [|a s (ws & Hs & Hws)]; [by exists ""|].
  simpl. destruct (p a) eqn:Ha.
  - exists (String a ws). rewrite str_app_cons, <- Hs. simpl. by rewrite Ha.
  - by exists "".
Qed.

Lemma lstrip_by_no_start p s :
  match PyStr.lstrip_by p s with
  | String c _ => p c = false
  | "" => True
  end.
Proof.
  induction s as [|a s IH]; [done|]. simpl.
  destruct (p a) eqn:Ha; [done|]. simpl. done.
Qed.

Lemma lstrip_by_all_app p ws s :
  PyStr.lstrip_by p ws = "" →
  PyStr.lstrip_by p (ws +:+ s) = PyStr.lstrip_by p s.
Proof.
  induction ws as [|a ws IH]; [done|].
  rewrite str_app_cons. simpl.
  destruct (p a) eqn:Ha; [auto|done].
Qed.

Lemma lstrip_by_id p s :
  match s with String c _ => p c = false | "" => True end →
  PyStr.lstrip_by p s = s.
Proof. destruct s as [|c s]; [done|]. simpl. by intros ->. Qed.

Lemma not_starts_with_space s :
  ¬ starts_with_space s ↔
  match s with String c _ => PyStr.is_space c = false | "" => True end.
Proof.
  destruct s as [|c s]; simpl; [tauto|].
  destruct (PyStr.is_space c); split; auto; congruence.
Qed.

(** The bullet pattern of the description is what the regular expression
    matches, and the rest of the line what its replacement leaves. *)
Lemma bullet_rest_Some line rest :
  bullet_rest line = Some rest ↔ is_bullet line rest.
Proof.
  unfold bullet_rest, is_bullet, all_space. split.
  - destruct (lstrip_by_split PyStr.is_space line) as (indent & Hline & Hindent).
    destruct (PyStr.lstrip_by PyStr.is_space line) as [|a [|c r]] eqn:Hl;
      [done|done|].
    destruct (Ascii.eqb_spec a "-") as [->|]; [|done]. simpl.
    destruct (PyStr.is_space c) eqn:Hc; [|done].
    intros [= <-].
    destruct (lstrip_by_split PyStr.is_space r) as (ws & Hr & Hws).
    exists indent, (String c ws). split_and!.
    + done.
    + simpl. by rewrite Hc.
    + done.
    + apply not_starts_with_space. apply lstrip_by_no_start.
    + rewrite Hline. f_equal. rewrite !str_app_cons, str_app_nil_l.
      by rewrite <- Hr.
  - intros (indent & gap & Hindent & Hgap & Hne & Hrest & ->).
    rewrite lstrip_by_all_app by done.
    destruct gap as [|c gap]; [done|].
    simpl in Hgap. destruct (PyStr.is_space c) eqn:Hc; [|done].
    rewrite !str_app_cons, str_app_nil_l. simpl. rewrite Hc. simpl.
    rewrite lstrip_by_all_app by done.
    f_equal. apply lstrip_by_id. by apply not_starts_with_space.
Qed.

Lemma bullet_rest_None line :
  bullet_rest line = None ↔ ∀ rest, ¬ is_bullet line rest.
Proof.
  split.
  - intros Hnone rest Hb. apply bullet_rest_Some in Hb. congruence.
  - intros Hnot. destruct (bullet_rest line) as [rest|] eqn:Hb; [|done].
    apply bullet_rest_Some in Hb. by apply Hnot in Hb.
Qed.

Lemma startswith_cons b s a pre :
  PyStr.startswith (String b s) (String a pre) =
  if Ascii.eqb a b then PyStr.startswith s pre else false.
Proof. reflexivity. Qed.

Lemma bullet_not_heading line rest :
  is_bullet line rest →
  PyStr.startswith line "## " = false ∧ PyStr.startswith line "### " = false.
Proof.
  intros (indent & gap & Hindent & _ & _ & _ & ->).
  destruct indent as [|c indent]; [done|].
  unfold all_space in Hindent. simpl in Hindent.
  destruct (PyStr.is_space c) eqn:Hc; [|done].
  rewrite str_app_cons, !startswith_cons.
  destruct (Ascii.eqb_spec "#" c) as [<-|]; [done|done].
Qed.

(** Every line becomes the block the description gives it. *)
Lemma line_block_becomes line : line_becomes line (line_block line).
Proof.
  unfold line_block.
  destruct (PyStr.startswith line "## ") eqn:H2.
  { rewrite (startswith_split _ _ H2) at 1. constructor. }
  destruct (PyStr.startswith line "### ") eqn:H3.
  { rewrite (startswith_split _ _ H3) at 1. constructor. }
  destruct (bullet_rest line) as [rest|] eqn:Hb.
  - constructor. by apply bullet_rest_Some.
  - constructor; [done|done|]. by apply bullet_rest_None.
Qed.

(** And no other block. *)
Lemma line_becomes_block line b : line_becomes line b → b = line_block line.
Proof.
  unfold line_block. destruct 1 as [text|text|line rest Hb|line H2 H3 Hb].
  - done.
  - done.
  - destruct (bullet_not_heading _ _ Hb) as [-> ->].
    apply bullet_rest_Some in Hb. by rewrite Hb.
  - rewrite H2, H3. apply bullet_rest_None in Hb. by rewrite Hb.
Qed.

End exporter.

(** C7. The document built from a text has one block per line of the
    text, in the order of the lines, and the block of a line depends on
    that line alone: a line that starts with "## " becomes a heading of
    level 1 without the prefix, one that starts with "### " a heading of
    level 2 without the prefix, one that matches the bullet pattern a
    "List Bullet" paragraph of what follows the marker, any other line,
    the empty line too, a plain paragraph of the line. The lines "## A",
    "### B", "- item", "plain" give heading 1 "A", heading 2 "B", bullet
    "item", paragraph "plain". *)
Theorem markdown_line_by_line :
  (∀ md_text,
     Forall2 line_becomes (PyStr.splitlines md_text) (markdown_blocks md_text)) ∧
  (∀ line b b', line_becomes line b → line_becomes line b' → b = b') ∧
  line_becomes "" (Paragraph "" None) ∧
  markdown_blocks demo_markdown =
    [Heading 1 "A"; Heading 2 "B"; Paragraph "item" (Some "List Bullet");
     Paragraph "plain" None].
Proof.
  split_and!.
  - intros md_text. rewrite markdown_blocks_map.
    apply Forall2_fmap_r, Forall_Forall2_diag, Forall_forall.
    intros line _. apply line_block_becomes.
  - intros line b b' Hb Hb'.
    apply line_becomes_block in Hb, Hb'. congruence.
  - apply (line_block_becomes "").
  - reflexivity.
Qed.

Lemma markdown_line_by_line_witness :
  Forall2 line_becomes ["## A"; "### B"; "- item"; "plain"]
    [Heading 1 "A"; Heading 2 "B"; Paragraph "item" (Some "List Bullet");
     Paragraph "plain" None] ∧
  Paragraph "item" (Some "List Bullet") = line_block "- item".
Proof.
  split.
  - exact (proj1 markdown_line_by_line demo_markdown).
  - apply (proj1 (proj2 markdown_line_by_line) "- item").
    + apply (line_block_becomes "- item").
    + apply line_block_becomes.
Defined.

(** * Further properties of the code *)

(** ** Text extraction *)

Section extraction.
Context (w : world).

Lemma nonempty_true s : nonempty s = true ↔ s ≠ "".
Proof.
  unfold nonempty. rewrite negb_true_iff.
  destruct (String.eqb_spec s ""); split; congruence.
Qed.

Lemma join_nonempty_parts sep (parts : list string) :
  Forall (λ t, t ≠ "") parts → PyStr.join sep parts = "" → parts = [].
Proof.
  intros Hparts Hjoin. destruct parts as [|t [|t' parts]]; [done| |].
  - apply Forall_cons in Hparts as [Ht _]. done.
  - apply Forall_cons in Hparts as [Ht _]. rewrite join_cons_cons in Hjoin.
    destruct t; [done|]. by rewrite str_app_cons in Hjoin.
Qed.

Lemma join_filter_empty sep (texts : list string) :
  PyStr.join sep (filter (λ txt, nonempty txt = true) texts) = "" ↔
  Forall (λ txt, txt = "") texts.
Proof.
  split.
  - intros Hjoin. apply join_nonempty_parts in Hjoin.
    + apply Forall_forall. intros txt Hin.
      destruct (decide (txt = "")) as [|Hne]; [done|].
      assert (txt ∈ filter (λ txt, nonempty txt = true) texts) as Hf.
      { apply list_elem_of_filter. split; [by apply nonempty_true|done]. }
      rewrite Hjoin in Hf. by apply elem_of_nil in Hf.
    + apply Forall_forall. intros txt [Hne _]%list_elem_of_filter.
      by apply nonempty_true.
  - intros Hall. induction Hall as [|txt texts -> _ IH]; [done|].
    by rewrite filter_cons_False.
Qed.

(** X1. When the parser opens the file, [extract_text_from_pdf] returns,
    after this one call, a text that is empty exactly when no page of the
    file has any text. *)
Theorem extract_text_from_pdf_empty content pages :
  pdf_pages w content = Return pages →
  ∃ text, extract_text_from_pdf w content = ([EvPdfOpen], Return text) ∧
    (text = "" ↔ Forall no_text pages).
Proof.
  intros Hopen. unfold extract_text_from_pdf, bind, call, ret.
  rewrite Hopen. eexists. split; [reflexivity|].
  rewrite join_filter_empty, Forall_fmap. done.
Qed.

(** X2. When the parser opens the file, [extract_text_from_docx] returns,
    after this one call, a text that is empty exactly when every paragraph
    of the file is empty. *)
Theorem extract_text_from_docx_empty content paragraphs :
  docx_paragraphs w content = Return paragraphs →
  ∃ text, extract_text_from_docx w content = ([EvDocxOpen], Return text) ∧
    (text = "" ↔ Forall (λ txt, txt = "") paragraphs).
Proof.
  intros Hopen. unfold extract_text_from_docx, bind, call, ret.
  rewrite Hopen. eexists. split; [reflexivity|].
  apply join_filter_empty.
Qed.

End extraction.

Lemma extract_text_from_pdf_empty_witness :
  ∃ text,
    extract_text_from_pdf abc_world "%PDF-1.7" = ([EvPdfOpen], Return text) ∧
    (text = "" ↔ Forall no_text [Some "Quito travel guide"; None]).
Proof.
  apply (extract_text_from_pdf_empty abc_world "%PDF-1.7"). reflexivity.
Defined.

Lemma extract_text_from_docx_empty_witness :
  ∃ text,
    extract_text_from_docx abc_world "PK" = ([EvDocxOpen], Return text) ∧
    (text = "" ↔ Forall (λ txt, txt = "") [" "; ""]).
Proof.
  apply (extract_text_from_docx_empty abc_world "PK"). reflexivity.
Defined.

(** ** The cleanup of the model's reply *)

Section cleanup.
Implicit Types (s t pre post body : string) (c a : ascii) (p q : ascii → bool).

Lemma clean_json_block_of_fenced reply pre body post :
  fenced reply = pre +:+ String lbrace (body +:+ String rbrace post) →
  PyStr.mem lbrace pre = false →
  PyStr.mem rbrace post = false →
  _clean_json_block reply = String lbrace (body +:+ String rbrace "").
Proof.
  intros Hfenced Hpre Hpost.
  unfold _clean_json_block. rewrite Hfenced.
  rewrite find_first by done.
  replace (pre +:+ String lbrace (body +:+ String rbrace post))
    with ((pre +:+ String lbrace body) +:+ String rbrace post)
    by (by rewrite str_app_assoc).
  rewrite rfind_last by done.
  rewrite str_length_app. cbn [String.length].
  destruct (Z.eqb_spec (Z.of_nat (String.length pre)) (-1)); [lia|].
  destruct (Z.eqb_spec
              (Z.of_nat (String.length pre + S (String.length body))) (-1));
    [lia|].
  destruct (Z.ltb_spec (Z.of_nat (String.length pre))
              (Z.of_nat (String.length pre + S (String.length body))));
    [|lia].
  cbn [negb andb]. rewrite Nat2Z.id.
  replace (Z.to_nat
             (Z.of_nat (String.length pre + S (String.length body)) + 1))
    with (String.length pre
          + String.length (String lbrace (body +:+ String rbrace "")))
    by (cbn [String.length]; rewrite str_length_app; simpl; lia).
  replace ((pre +:+ String lbrace body) +:+ String rbrace post)
    with (pre +:+ String lbrace (body +:+ String rbrace "") +:+ post).
  - apply slice_middle.
  - rewrite !str_app_assoc, !str_app_cons, str_app_assoc. done.
Qed.

Lemma lstrip_by_trail p t : str_forall p t = true → PyStr.lstrip_by p t = "".
Proof.
  induction t as [|a t IH]; [done|]. simpl. intros [Ha Ht]%andb_true_iff.
  rewrite Ha. auto.
Qed.

Lemma strip_padded lead s trail :
  all_space lead → str_forall PyStr.is_space trail = true →
  match s with String c _ => PyStr.is_space c = false | "" => True end →
  PyStr.rstrip_by PyStr.is_space s = s →
  PyStr.strip (lead +:+ s +:+ trail) = s.
Proof.
  intros Hlead Htrail Hfirst Hlast. unfold PyStr.strip, PyStr.strip_by.
  rewrite lstrip_by_all_app by done.
  destruct s as [|c s].
  { rewrite str_app_nil_l, lstrip_by_trail by done. done. }
  rewrite str_app_cons. simpl. rewrite Hfirst.
  rewrite <- str_app_cons. by rewrite rstrip_by_drop.
Qed.

End cleanup.

(** ** Replies in code fences *)

Section line_feeds.
Implicit Types (s t u pre post body : string) (c a : ascii).

Lemma lf_breaks_cons c s :
  lf_breaks (String c s) =
  if PyStr.is_linebreak c then
    String PyStr.LF
      match s with
      | String c' s' =>
          if Ascii.eqb c PyStr.CR && Ascii.eqb c' PyStr.LF
          then lf_breaks s' else lf_breaks s
      | "" => ""
      end
  else String c (lf_breaks s).
Proof. reflexivity. Qed.

Lemma str_length_ind (P : string → Prop) :
  (∀ s, (∀ t, String.length t < String.length s → P t) → P s) → ∀ s, P s.
Proof.
  intros H s. assert (∀ n t, String.length t < n → P t) as Hn.
  { induction n as [|n IH]; intros t Ht; [lia|].
    apply H. intros u Hu. apply IH. lia. }
  apply (Hn (S (String.length s))). lia.
Qed.

(** The lines of a text that ends in a line feed, joined again: the text
    with its line boundaries as line feeds, less the last one. *)
Lemma join_splitlines_breaks u :
  PyStr.join (String PyStr.LF "")
    (PyStr.splitlines (u +:+ String PyStr.LF "")) +:+ String PyStr.LF ""
  = lf_breaks (u +:+ String PyStr.LF "").
Proof.
  induction u as [u IH] using str_length_ind.
  destruct u as [|c r]; [done|].
  rewrite str_app_cons, splitlines_cons, lf_breaks_cons.
  destruct (PyStr.is_linebreak c) eqn:Hc.
  - destruct r as [|c' r'].
    + rewrite str_app_nil_l.
      destruct (Ascii.eqb c PyStr.CR); reflexivity.
    + rewrite str_app_cons.
      destruct (Ascii.eqb c PyStr.CR && Ascii.eqb c' PyStr.LF).
      * destruct (PyStr.splitlines (r' +:+ String PyStr.LF "")) as [|l ls] eqn:Hl.
        { destruct r'; by apply splitlines_nonempty in Hl. }
        rewrite join_cons_cons, <- Hl. rewrite str_app_nil_l.
        rewrite str_app_assoc, str_app_cons, str_app_nil_l.
        change (String PyStr.LF "" +:+ ?t) with (String PyStr.LF t).
        f_equal. rewrite <- IH by (simpl; lia). done.
      * rewrite <- str_app_cons.
        destruct (PyStr.splitlines (String c' r' +:+ String PyStr.LF ""))
          as [|l ls] eqn:Hl.
        { rewrite str_app_cons in Hl. by apply splitlines_nonempty in Hl. }
        rewrite join_cons_cons, <- Hl. rewrite str_app_nil_l.
        change (String PyStr.LF "" +:+ ?t) with (String PyStr.LF t).
        rewrite str_app_cons. f_equal.
        rewrite <- IH by (simpl; lia). done.
  - rewrite join_cons_head by (destruct r; apply splitlines_nonempty).
    rewrite str_app_cons. f_equal. apply IH. simpl. lia.
Qed.

Lemma lf_breaks_app_cons s c t :
  c ≠ PyStr.LF →
  lf_breaks (s +:+ String c t) = lf_breaks s +:+ lf_breaks (String c t).
Proof.
  intros Hc. induction s as [s IH] using str_length_ind.
  destruct s as [|a r]; [done|].
  rewrite str_app_cons, !(lf_breaks_cons a).
  destruct (PyStr.is_linebreak a).
  - rewrite str_app_cons. f_equal. destruct r as [|a' r'].
    + rewrite str_app_nil_l.
      assert (Ascii.eqb c PyStr.LF = false) as -> by by apply Ascii.eqb_neq.
      by rewrite andb_false_r.
    + rewrite str_app_cons.
      destruct (Ascii.eqb a PyStr.CR && Ascii.eqb a' PyStr.LF).
      * apply IH. simpl. lia.
      * rewrite <- str_app_cons. apply IH. simpl. lia.
  - rewrite str_app_cons. f_equal. apply IH. simpl. lia.
Qed.

Lemma mem_app c s t : PyStr.mem c (s +:+ t) = PyStr.mem c s || PyStr.mem c t.
Proof.
  induction s as [|a s IH]; [done|].
  rewrite str_app_cons. simpl. by rewrite IH, orb_assoc.
Qed.

Lemma mem_lf_breaks c s :
  c ≠ PyStr.LF → PyStr.mem c s = false → PyStr.mem c (lf_breaks s) = false.
Proof.
  intros Hc. induction s as [s IH] using str_length_ind.
  destruct s as [|a r]; [done|]. intros Hs.
  cbn [PyStr.mem] in Hs. apply orb_false_iff in Hs as [Ha Hr].
  rewrite lf_breaks_cons. destruct (PyStr.is_linebreak a).
  - cbn [PyStr.mem].
    assert (Ascii.eqb c PyStr.LF = false) as -> by by apply Ascii.eqb_neq.
    rewrite orb_false_l. destruct r as [|a' r']; [done|].
    destruct (_ && _).
    + apply IH; [simpl; lia|].
      cbn [PyStr.mem] in Hr. by apply orb_false_iff in Hr as [_ ?].
    + apply IH; [simpl; lia|done].
  - cbn [PyStr.mem]. rewrite Ha, orb_false_l. apply IH; [simpl; lia|done].
Qed.

Lemma str_app_inv_last s t c :
  s +:+ String c "" = t +:+ String c "" → s = t.
Proof.
  revert t. induction s as [|a s IH]; intros [|b t] Heq.
  - done.
  - rewrite str_app_nil_l, str_app_cons in Heq. injection Heq as -> Heq.
    by destruct t.
  - rewrite str_app_nil_l, str_app_cons in Heq. injection Heq as -> Heq.
    by destruct s.
  - rewrite !str_app_cons in Heq. injection Heq as -> Heq.
    f_equal. by apply IH.
Qed.

Lemma lf_breaks_lf_lines s : lf_lines s = true → lf_breaks s = s.
Proof.
  unfold lf_lines. induction s as [|a s IH]; [done|]. simpl.
  intros [Ha Hs]%andb_true_iff.
  destruct (PyStr.is_linebreak a) eqn:Hbreak.
  - simpl in Ha. apply Ascii.eqb_eq in Ha as ->.
    destruct s as [|c' r']; [done|].
    change (Ascii.eqb PyStr.LF PyStr.CR && Ascii.eqb c' PyStr.LF) with false.
    cbv iota. f_equal. by apply IH.
  - f_equal. by apply IH.
Qed.

Lemma fenced_fence lead info content trail :
  str_forall PyStr.is_space lead = true →
  str_forall PyStr.is_space trail = true →
  one_line info = true →
  fenced (lead +:+ fence_block info content +:+ trail)
  = PyStr.join (String PyStr.LF "")
      (PyStr.splitlines (content +:+ String PyStr.LF "")).
Proof.
  intros Hlead Htrail Hinfo. unfold fenced. cbv zeta.
  rewrite strip_padded.
  - rewrite fence_block_eq, startswith_ticks.
    rewrite strip_ticks_bracketed by done.
    rewrite splitlines_first_line by by apply str_forall_lstrip.
    done.
  - unfold all_space. by apply lstrip_by_trail.
  - done.
  - done.
  - rewrite fence_block_eq, <- str_app_assoc.
    by apply rstrip_by_keep_app.
Qed.

End line_feeds.

(** C4, as the specification has it, fails on a fenced reply that is all
    on one line: once the back-ticks are off the one line is dropped as
    the line of the opening fence, and nothing is left. *)
Lemma fenced_reply_on_one_line : ¬ fenced_replies_isolated.
Proof.
  intros H. specialize (H "json Here: " "a: 1" " bye").
  vm_compute in H. by specialize (H ltac:(done) ltac:(done) eq_refl eq_refl).
Qed.

(** C4, amended. A reply in a code fence, white space around it or not:
    the opening fence with an info string on a line of its own, ended by
    a line feed, the content, a line feed, the closing fence. When the
    content reads: prose without an opening brace, an opening brace, a
    body, a closing brace, prose without a closing brace,
    [_clean_json_block] returns the braces and the body between them,
    every line boundary of the body written as a line feed; so the block
    of the reply itself when the lines of the body end in line feeds. *)
Theorem clean_json_block_isolates :
  (∀ lead info pre body post trail,
     str_forall PyStr.is_space lead = true →
     str_forall PyStr.is_space trail = true →
     one_line info = true →
     PyStr.mem lbrace pre = false →
     PyStr.mem rbrace post = false →
     _clean_json_block
       (lead +:+
        fence_block info (pre +:+ String lbrace (body +:+ String rbrace post))
        +:+ trail)
     = String lbrace (lf_breaks body +:+ String rbrace "")) ∧
  (∀ lead info pre body post trail,
     str_forall PyStr.is_space lead = true →
     str_forall PyStr.is_space trail = true →
     one_line info = true →
     PyStr.mem lbrace pre = false →
     PyStr.mem rbrace post = false →
     lf_lines body = true →
     _clean_json_block
       (lead +:+
        fence_block info (pre +:+ String lbrace (body +:+ String rbrace post))
        +:+ trail)
     = String lbrace (body +:+ String rbrace "")).
Proof.
  assert (∀ lead info pre body post trail,
     str_forall PyStr.is_space lead = true →
     str_forall PyStr.is_space trail = true →
     one_line info = true →
     PyStr.mem lbrace pre = false →
     PyStr.mem rbrace post = false →
     _clean_json_block
       (lead +:+
        fence_block info (pre +:+ String lbrace (body +:+ String rbrace post))
        +:+ trail)
     = String lbrace (lf_breaks body +:+ String rbrace "")) as Hgeneral.
  { intros lead info pre body post trail Hlead Htrail Hinfo Hpre Hpost.
    apply (clean_json_block_of_fenced _ (lf_breaks pre) (lf_breaks body)
             (PyStr.join (String PyStr.LF "")
                (PyStr.splitlines (post +:+ String PyStr.LF "")))).
    - rewrite fenced_fence by done.
      apply (str_app_inv_last _ _ PyStr.LF).
      rewrite join_splitlines_breaks.
      repeat (rewrite str_app_assoc || rewrite str_app_cons).
      rewrite join_splitlines_breaks.
      rewrite lf_breaks_app_cons by done.
      rewrite (lf_breaks_cons lbrace).
      change (PyStr.is_linebreak lbrace) with false. cbv iota.
      f_equal. f_equal.
      rewrite lf_breaks_app_cons by done.
      rewrite (lf_breaks_cons rbrace).
      change (PyStr.is_linebreak rbrace) with false. cbv iota.
      done.
    - by apply mem_lf_breaks.
    - assert (PyStr.mem rbrace
                (PyStr.join (String PyStr.LF "")
                   (PyStr.splitlines (post +:+ String PyStr.LF ""))
                 +:+ String PyStr.LF "") = false) as Hmem.
      { rewrite join_splitlines_breaks. apply mem_lf_breaks; [done|].
        rewrite mem_app, Hpost. done. }
      rewrite mem_app in Hmem. by apply orb_false_iff in Hmem as [? _]. }
  split; [exact Hgeneral|].
  intros lead info pre body post trail Hlead Htrail Hinfo Hpre Hpost Hbody.
  rewrite Hgeneral by done. by rewrite lf_breaks_lf_lines.
Qed.

Lemma clean_json_block_isolates_witness :
  _clean_json_block
    ("  " +:+
     fence_block "json"
       (demo_reply_pre +:+
        String lbrace (demo_json_body +:+ String rbrace demo_reply_post))
     +:+ String PyStr.LF "")
  = String lbrace (demo_json_body +:+ String rbrace "") ∧
  _clean_json_block
    ("" +:+
     fence_block "json"
       ("Here: " +:+
        String lbrace (("a" +:+ String PyStr.CR (String PyStr.LF "b"))
                       +:+ String rbrace " bye"))
     +:+ "")
  = String lbrace (("a" +:+ String PyStr.LF "b") +:+ String rbrace "").
Proof.
  split.
  - apply (proj2 clean_json_block_isolates "  " "json" demo_reply_pre
             demo_json_body demo_reply_post (String PyStr.LF ""));
      reflexivity.
  - apply (proj1 clean_json_block_isolates "" "json" "Here: "
             ("a" +:+ String PyStr.CR (String PyStr.LF "b")) " bye" "");
      reflexivity.
Defined.


Section cleanup_cases.
Implicit Types (s t pre post body : string) (c a : ascii) (p q : ascii → bool).

Lemma str_forall_rstrip q p s :
  str_forall q s = true → str_forall q (PyStr.rstrip_by p s) = true.
Proof.
  induction s as [|a s IH]; [done|]. simpl. intros [Ha Hs]%andb_true_iff.
  specialize (IH Hs). destruct (PyStr.rstrip_by p s) as [|b r].
  - destruct (p a); [done|]. simpl. by rewrite Ha.
  - simpl in *. by rewrite Ha, IH.
Qed.

Lemma splitlines_one_line s :
  one_line s = true → tail (PyStr.splitlines s) = [].
Proof.
  unfold one_line. intros Hs.
  assert (PyStr.splitlines s = match s with "" => [] | _ => [s] end) as ->;
    [|by destruct s].
  induction s as [|a s IH]; [done|].
  simpl in Hs. apply andb_true_iff in Hs as [Ha Hs].
  rewrite splitlines_cons. apply negb_true_iff in Ha. rewrite Ha.
  rewrite IH by done. by destruct s.
Qed.

Lemma find_inv c s :
  PyStr.find c s ≠ (-1)%Z →
  ∃ pre t, s = pre +:+ String c t ∧ PyStr.mem c pre = false.
Proof.
  induction s as [|a s IH]; [done|]. simpl.
  destruct (Ascii.eqb_spec a c) as [->|Hne].
  - intros _. by exists "", s.
  - destruct (Z.eqb_spec (PyStr.find c s) (-1)) as [|Hfound]; [done|].
    intros _. destruct (IH Hfound) as (pre & t & -> & Hpre).
    exists (String a pre), t. split; [done|]. simpl.
    rewrite Hpre, orb_false_r. apply Ascii.eqb_neq. congruence.
Qed.

Lemma rfind_none c s : PyStr.rfind c s = (-1)%Z → PyStr.mem c s = false.
Proof.
  induction s as [|b s IH]; [done|]. simpl.
  pose proof (rfind_ge c s).
  destruct (Z.eqb_spec (PyStr.rfind c s) (-1)) as [Hs|]; [|lia].
  destruct (Ascii.eqb_spec b c) as [|Hbc]; [done|]. intros _.
  rewrite (IH Hs), orb_false_r. apply Ascii.eqb_neq. congruence.
Qed.

Lemma rfind_inv c s :
  PyStr.rfind c s ≠ (-1)%Z →
  ∃ pre post, s = pre +:+ String c post ∧ PyStr.mem c post = false.
Proof.
  induction s as [|a s IH]; [done|]. simpl.
  destruct (Z.eqb_spec (PyStr.rfind c s) (-1)) as [Hnone|Hfound].
  - destruct (Ascii.eqb_spec a c) as [->|]; [|done].
    intros _. exists "", s. split; [done|]. by apply rfind_none.
  - intros _. destruct (IH Hfound) as (pre & post & -> & Hpost).
    by exists (String a pre), post.
Qed.

Lemma find_le_occurrence c pre t :
  (0 ≤ PyStr.find c (pre +:+ String c t) ≤ Z.of_nat (String.length pre))%Z.
Proof.
  induction pre as [|a pre IH].
  - rewrite str_app_nil_l. simpl. by rewrite Ascii.eqb_refl.
  - rewrite str_app_cons. cbn [PyStr.find String.length].
    destruct (Ascii.eqb a c); [lia|].
    destruct (Z.eqb_spec (PyStr.find c (pre +:+ String c t)) (-1)); lia.
Qed.

Lemma rfind_ge_occurrence c pre t :
  (Z.of_nat (String.length pre) ≤ PyStr.rfind c (pre +:+ String c t))%Z.
Proof.
  induction pre as [|a pre IH].
  - rewrite str_app_nil_l. simpl. pose proof (rfind_ge c t).
    destruct (Z.eqb_spec (PyStr.rfind c t) (-1)); [|lia].
    by rewrite Ascii.eqb_refl.
  - rewrite str_app_cons. cbn [PyStr.rfind String.length].
    destruct (Z.eqb_spec (PyStr.rfind c (pre +:+ String c t)) (-1)); lia.
Qed.

Lemma block_in_order t pre body post :
  t = pre +:+ String lbrace (body +:+ String rbrace post) →
  (PyStr.find lbrace t < PyStr.rfind rbrace t)%Z.
Proof.
  intros ->. pose proof (find_le_occurrence lbrace pre
                           (body +:+ String rbrace post)) as Hfind.
  replace (pre +:+ String lbrace (body +:+ String rbrace post))
    with ((pre +:+ String lbrace body) +:+ String rbrace post) in *
    by (by rewrite str_app_assoc).
  pose proof (rfind_ge_occurrence rbrace (pre +:+ String lbrace body) post)
    as Hrfind.
  rewrite str_length_app in Hrfind. cbn [String.length] in Hrfind. lia.
Qed.

Lemma str_prefix_split pre x t u :
  pre +:+ t = x +:+ u → String.length pre < String.length x →
  ∃ m, x = pre +:+ m ∧ t = m +:+ u ∧ m ≠ "".
Proof.
  revert x. induction pre as [|a pre IH]; intros x Heq Hlen.
  - exists x. rewrite !str_app_nil_l in *. split_and!; [done|done|].
    intros ->. simpl in Hlen. lia.
  - destruct x as [|b x]; [simpl in Hlen; lia|].
    rewrite !str_app_cons in Heq. injection Heq as -> Heq.
    destruct (IH x Heq) as (m & -> & -> & Hm); [simpl in Hlen; lia|].
    by exists m.
Qed.

(** X3. A reply that is a braced block, with white space around it or
    without, comes out as the block itself: the white space goes and
    nothing else. *)
Theorem clean_json_block_plain_object lead body trail :
  str_forall PyStr.is_space lead = true →
  str_forall PyStr.is_space trail = true →
  _clean_json_block
    (lead +:+ String lbrace (body +:+ String rbrace "") +:+ trail)
  = String lbrace (body +:+ String rbrace "").
Proof.
  intros Hlead Htrail.
  apply (clean_json_block_of_fenced _ "" body ""); [|done|done].
  unfold fenced. cbv zeta. rewrite strip_padded.
  - by rewrite startswith_cons.
  - unfold all_space. by apply lstrip_by_trail.
  - done.
  - done.
  - rewrite <- str_app_cons. by apply rstrip_by_keep.
Qed.

(** X4. A reply in back-ticks that is all on one line loses its content:
    once the back-ticks are off, the first line is dropped as the line of
    the opening fence, and the cleanup returns the empty string. *)
Theorem clean_json_block_one_line_fence s :
  PyStr.startswith (PyStr.strip s) "```" = true →
  one_line (PyStr.strip s) = true →
  _clean_json_block s = "".
Proof.
  intros Hfence Hline. unfold _clean_json_block, fenced. cbv zeta.
  rewrite Hfence. rewrite splitlines_one_line; [done|].
  unfold PyStr.strip_chars, PyStr.strip_by.
  by apply str_forall_rstrip, str_forall_lstrip.
Qed.

(** X5. Unless the text left once the fences are off has an opening brace
    with a closing brace somewhere after it, the cleanup returns that text
    as it is: nothing is cut when there is no block to isolate. *)
Theorem clean_json_block_no_block s :
  (¬ ∃ pre body post,
       fenced s = pre +:+ String lbrace (body +:+ String rbrace post)) →
  _clean_json_block s = fenced s.
Proof.
  intros Hno. unfold _clean_json_block. cbv zeta.
  destruct (Z.eqb_spec (PyStr.find lbrace (fenced s)) (-1)) as [|Hstart];
    [done|].
  destruct (Z.eqb_spec (PyStr.rfind rbrace (fenced s)) (-1)) as [|Hend];
    [done|].
  destruct (Z.ltb_spec (PyStr.find lbrace (fenced s))
              (PyStr.rfind rbrace (fenced s))) as [Hlt|]; [|done].
  exfalso. apply Hno.
  destruct (find_inv _ _ Hstart) as (pre & t & Hpre & Hmem).
  destruct (rfind_inv _ _ Hend) as (x & post & Hx & Hmem').
  rewrite Hpre in Hlt at 1. rewrite find_first in Hlt by done.
  rewrite Hx in Hlt. rewrite rfind_last in Hlt by done.
  destruct (str_prefix_split pre x (String lbrace t) (String rbrace post))
    as (m & -> & Ht & Hm); [congruence|lia|].
  destruct m as [|a body]; [done|].
  rewrite str_app_cons in Ht. injection Ht as <- ->.
  by exists pre, body, post.
Qed.

End cleanup_cases.

Lemma clean_json_block_plain_object_witness :
  _clean_json_block
    (" " +:+ String lbrace (demo_json_body +:+ String rbrace "")
     +:+ String PyStr.LF "")
  = String lbrace (demo_json_body +:+ String rbrace "").
Proof.
  apply (clean_json_block_plain_object " " demo_json_body
           (String PyStr.LF "")); reflexivity.
Defined.

Lemma clean_json_block_one_line_fence_witness :
  _clean_json_block " ```json {a: 1}``` " = "".
Proof.
  apply (clean_json_block_one_line_fence " ```json {a: 1}``` "); reflexivity.
Defined.

Lemma clean_json_block_no_block_witness :
  _clean_json_block " } no object here { " = "} no object here {".
Proof.
  rewrite (clean_json_block_no_block " } no object here { ");
    [reflexivity|].
  intros (pre & body & post & H). apply block_in_order in H.
  vm_compute in H. discriminate H.
Defined.

(** ** The loop of [trends_popularity], further *)

Section trends_further.
Context (w : world).
Implicit Types (scores : gmap string (option Q)) (group : list string).

Lemma chunk_length {A} (l : list A) n :
  length (chunk l n) = (length l + n - 1) / n.
Proof.
  unfold chunk, PyList.range0, PyList.range_len.
  by rewrite !length_fmap, length_seq.
Qed.

Lemma record_means_lookup_in means group : ∀ scores k,
  k ∈ group → record_means means group scores !! k = Some (means !! k).
Proof.
  induction group as [|x group IH]; intros scores k Hk.
  - by apply elem_of_nil in Hk.
  - change (record_means means (x :: group) scores)
      with (record_means means group (<[x := means !! x]> scores)).
    destruct (decide (k ∈ group)) as [Hin|Hnin]; [by apply IH|].
    apply elem_of_cons in Hk as [->|Hk]; [|done].
    rewrite record_means_lookup_notin by done.
    apply lookup_insert_eq.
Qed.

Lemma elem_of_concat {A} (x : A) (ls : list (list A)) :
  x ∈ concat ls ↔ ∃ l, l ∈ ls ∧ x ∈ l.
Proof.
  induction ls as [|l ls IH]; simpl.
  - split; [by intros ?%elem_of_nil|by intros (l & ?%elem_of_nil & _)].
  - rewrite elem_of_app, IH. split.
    + intros [Hx|(l' & Hl' & Hx)]; [exists l|exists l'];
        (split; [|done]); [by left|by right].
    + intros (l' & [->|Hl']%elem_of_cons & Hx); [by left|right; eauto].
Qed.

Lemma groups_scores_other k groups : ∀ i scores,
  (∀ g, g ∈ groups → k ∉ g) →
  groups_scores w i groups scores !! k = scores !! k.
Proof.
  induction groups as [|g groups IH]; intros i scores Hk; simpl; [done|].
  rewrite IH by (intros g' Hg'; apply Hk; by right).
  apply group_scores_other, Hk. by left.
Qed.

Lemma groups_scores_app groups1 groups2 : ∀ i scores,
  groups_scores w i (groups1 ++ groups2) scores =
  groups_scores w (i + length groups1) groups2
    (groups_scores w i groups1 scores).
Proof.
  induction groups1 as [|g groups1 IH]; intros i scores; simpl.
  - by rewrite Nat.add_0_r.
  - rewrite IH. f_equal. lia.
Qed.

Lemma queries_of_batches (groups : list (list string)) :
  length (filter (λ ev, is_query ev = true) (EvTrendsQuery <$> groups))
  = length groups.
Proof.
  induction groups as [|g groups IH]; [done|].
  rewrite fmap_cons, filter_cons_True by done. simpl. by rewrite IH.
Qed.

(** X6. Whatever the trends service answers, a non-empty keyword list
    costs one construction of the client and then one query per batch of
    five, in the order of the list: failures stop nothing, and the
    number of queries is the length of the list over five, rounded up. *)
Theorem trends_popularity_queries keywords :
  keywords ≠ [] → trend_req w = Return tt →
  trace (trends_popularity w keywords)
  = EvTrendReq :: (EvTrendsQuery <$> chunk keywords 5) ∧
  length (filter (λ ev, is_query ev = true)
            (trace (trends_popularity w keywords)))
  = (length keywords + 4) / 5.
Proof.
  intros Hne Hreq. rewrite trends_popularity_eq by done.
  unfold trace. cbn [fst]. split; [done|].
  rewrite filter_cons_False by done.
  replace (length keywords + 4) with (length keywords + 5 - 1) by lia.
  by rewrite queries_of_batches, chunk_length.
Qed.

(** X7. The mapping [trends_popularity] returns has an entry for every
    keyword of the list and for nothing else, whatever the service
    answers. *)
Theorem trends_popularity_entries keywords :
  trend_req w = Return tt →
  ∃ scores, outcome (trends_popularity w keywords) = Return scores ∧
    ∀ k, is_Some (scores !! k) ↔ k ∈ keywords.
Proof.
  intros Hreq. eexists. split; [by apply trends_popularity_returns|].
  intros k. split.
  - intros Hsome. destruct (decide (k ∈ keywords)) as [|Hnot]; [done|].
    rewrite groups_scores_other in Hsome.
    + rewrite lookup_empty in Hsome. by destruct Hsome.
    + intros g Hg Hk. apply Hnot.
      rewrite <- (chunk_concat keywords 5) by lia.
      apply elem_of_concat. eauto.
  - intros Hk. apply groups_scores_is_Some. right.
    rewrite <- (chunk_concat keywords 5) in Hk by lia.
    apply elem_of_concat in Hk as (g & Hg & Hkg).
    apply list_elem_of_lookup in Hg as [j Hj]. eauto.
Qed.

(** X8. The last batch that holds a keyword decides its score when its
    query succeeds: the score is the mean the frame has for the keyword,
    and [None] when the frame has no column for it, whatever earlier
    batches recorded. *)
Theorem last_successful_batch_wins keywords j group means k :
  trend_req w = Return tt →
  chunk keywords 5 !! j = Some group →
  k ∈ group →
  (∀ j' g, j < j' → chunk keywords 5 !! j' = Some g → k ∉ g) →
  interest_over_time w j group = Return (Some means) →
  ∃ scores, outcome (trends_popularity w keywords) = Return scores ∧
    scores !! k = Some (means !! k).
Proof.
  intros Hreq Hj Hk Hlast Hmeans.
  eexists. split; [by apply trends_popularity_returns|].
  rewrite <- (take_drop_middle _ _ _ Hj).
  rewrite groups_scores_app. simpl.
  rewrite groups_scores_other.
  - rewrite length_take_le by (apply lookup_lt_Some in Hj; lia).
    unfold group_scores. rewrite Hmeans.
    by apply record_means_lookup_in.
  - intros g Hg. apply list_elem_of_lookup in Hg as [i Hi].
    rewrite lookup_drop in Hi. apply (Hlast (S j + i)); [lia|done].
Qed.

End trends_further.

Lemma trends_popularity_queries_witness :
  length (filter (λ ev, is_query ev = true)
            (trace (trends_popularity repeated_world repeated_keywords))) = 2.
Proof.
  apply (trends_popularity_queries repeated_world repeated_keywords);
    [discriminate|reflexivity].
Defined.

Lemma trends_popularity_entries_witness :
  ∃ scores,
    outcome (trends_popularity repeated_world repeated_keywords)
    = Return scores ∧
    ∀ k, is_Some (scores !! k) ↔ k ∈ repeated_keywords.
Proof.
  apply (trends_popularity_entries repeated_world repeated_keywords).
  reflexivity.
Defined.

Lemma last_successful_batch_wins_witness :
  ∃ scores,
    outcome (trends_popularity abc_world ["a"; "b"; "c"]) = Return scores ∧
    scores !! "b" = Some None ∧ scores !! "c" = Some (Some 40%Q).
Proof.
  destruct (last_successful_batch_wins abc_world ["a"; "b"; "c"] 0
              ["a"; "b"; "c"] (<["a" := 80%Q]> (<["c" := 40%Q]> ∅)) "c")
    as (scores & Hret & Hc).
  - reflexivity.
  - reflexivity.
  - set_solver.
  - intros j' g Hj' Hg. destruct j' as [|j']; [lia|]. done.
  - reflexivity.
  - exists scores. split; [done|]. split; [|done].
    vm_compute in Hret. injection Hret as <-. vm_compute. reflexivity.
Defined.

(** ** The request, step by step, further *)

Section upload_further.
Context (tpl : templates) (w : world).

Lemma generate_keywords_trace text :
  trace (generate_keywords_from_doc tpl w text)
  = [EvLLM (keywords_prompt tpl text)].
Proof.
  unfold generate_keywords_from_doc, keywords_prompt, bind, call, lift, ret.
  destruct (responses_create w _) as [resp|e]; [|done].
  by destruct (json_loads w _).
Qed.

Lemma extracted_opened filename content text :
  extracted w filename content text →
  ∃ opened, (opened = EvPdfOpen ∨ opened = EvDocxOpen) ∧
    ∀ k : string → M upload_response,
      (let* saved := call (EvTempWrite content) (Return tt) in
       let* text :=
         (if PyStr.endswith (PyStr.lower filename) ".pdf"
          then extract_text_from_pdf w content
          else if PyStr.endswith (PyStr.lower filename) ".docx"
          then extract_text_from_docx w content
          else raise (HTTPException 400
                        "Unsupported file type. Use .pdf or .docx")) in
       k text)
      = ([EvTempWrite content; opened] ++ trace (k text), outcome (k text)).
Proof.
  intros [[Hpdf Hext]|(Hpdf & Hdocx & Hext)].
  - exists EvPdfOpen. split; [by left|]. intros k. rewrite Hpdf.
    unfold extract_text_from_pdf, bind, call, ret in *.
    destruct (pdf_pages w content) as [pages|e]; simpl in Hext; [|done].
    injection Hext as ->. by destruct (k _).
  - exists EvDocxOpen. split; [by right|]. intros k. rewrite Hpdf, Hdocx.
    unfold extract_text_from_docx, bind, call, ret in *.
    destruct (docx_paragraphs w content) as [pars|e]; simpl in Hext; [|done].
    injection Hext as ->. by destruct (k _).
Qed.

(** X9. When the keyword step raises (the language model, or the parser
    on its cleaned reply), the request raises the same exception and ends
    there: the temporary copy, the document parser and this one prompt are
    all it has done; no trends query, no copy, no export. *)
Theorem upload_keyword_failure filename content text e :
  extracted w filename content text →
  PyStr.strip text ≠ "" →
  outcome (generate_keywords_from_doc tpl w text) = Raise e →
  outcome (upload tpl w filename content) = Raise e ∧
  ∃ opened, (opened = EvPdfOpen ∨ opened = EvDocxOpen) ∧
    trace (upload tpl w filename content)
    = [EvTempWrite content; opened; EvLLM (keywords_prompt tpl text)].
Proof.
  intros Hext Hblank Hraise.
  destruct (extracted_opened _ _ _ Hext) as (opened & Hopened & Hrun).
  unfold upload. rewrite Hrun. simpl.
  apply nonempty_true in Hblank. rewrite Hblank.
  rewrite outcome_bind, trace_bind, Hraise, generate_keywords_trace.
  split; [done|]. exists opened. split; [done|]. by rewrite app_nil_r.
Qed.

Lemma analyse_trace filename content text seo_data :
  outcome (analyse tpl w filename content) = Return (text, seo_data) →
  ∃ opened, (opened = EvPdfOpen ∨ opened = EvDocxOpen) ∧
    trace (analyse tpl w filename content)
    = [EvTempWrite content; opened; EvLLM (keywords_prompt tpl text)].
Proof.
  unfold analyse, generate_keywords_from_doc, keywords_prompt,
    extract_text_from_pdf, extract_text_from_docx, bind, call, lift, raise, ret.
  destruct (PyStr.endswith _ ".pdf").
  - destruct (pdf_pages w content) as [pages|e]; [|done].
    destruct (nonempty _); [|done].
    destruct (responses_create w _) as [resp|e] eqn:Hresp; [|done].
    destruct (json_loads w _); [|done]. simpl. intros [= <- _].
    exists EvPdfOpen. split; [by left|done].
  - destruct (PyStr.endswith _ ".docx"); [|done].
    destruct (docx_paragraphs w content) as [pages|e]; [|done].
    destruct (nonempty _); [|done].
    destruct (responses_create w _) as [resp|e] eqn:Hresp; [|done].
    destruct (json_loads w _); [|done]. simpl. intros [= <- _].
    exists EvDocxOpen. split; [by right|done].
Qed.

(** X10. The construction of the trends client is outside the [try] of
    the batches: when it raises, for a request with at least one
    candidate, the request raises the same exception; it has made no
    query, asked for no copy and exported nothing. *)
Theorem upload_trends_client_failure filename content text seo_data e :
  outcome (analyse tpl w filename content) = Return (text, seo_data) →
  candidates_of seo_data ≠ [] →
  trend_req w = Raise e →
  outcome (upload tpl w filename content) = Raise e ∧
  trace (upload tpl w filename content)
  = trace (analyse tpl w filename content) ++ [EvTrendReq].
Proof.
  intros Ha Hne Hreq.
  rewrite upload_analyse, outcome_bind, trace_bind, Ha. simpl.
  unfold respond. fold (candidates_of seo_data).
  rewrite outcome_bind, trace_bind.
  assert (trends_popularity w (candidates_of seo_data)
          = ([EvTrendReq], Raise e)) as ->.
  { unfold trends_popularity. destruct (candidates_of seo_data); [done|].
    by rewrite Hreq. }
  simpl. by rewrite ?app_nil_r.
Qed.

(** X11. With no candidate at all the trends client is not even
    constructed: the request is answered with an empty ranking, whether
    the trends service is there or not. *)
Theorem upload_no_candidates filename content text seo_data :
  outcome (analyse tpl w filename content) = Return (text, seo_data) →
  candidates_of seo_data = [] →
  ∃ r, outcome (upload tpl w filename content) = Return r ∧
    keywords_ranked r = [] ∧
    Forall (λ ev, ev ≠ EvTrendReq ∧ is_query ev = false)
      (trace (upload tpl w filename content)).
Proof.
  intros Ha Hnone.
  assert (outcome (trends_popularity w (candidates_of seo_data)) = Return ∅)
    as Hscores by by rewrite Hnone.
  eexists. split; [by eapply upload_outcome|]. split.
  - simpl. by rewrite Hnone.
  - destruct (analyse_trace _ _ _ _ Ha) as (opened & Hopened & Htrace).
    rewrite upload_analyse, trace_bind, Ha, Htrace. simpl.
    rewrite (respond_trace _ _ _ _ ∅) by by rewrite Hnone.
    rewrite Hnone. unfold export_save.
    destruct (converted w _);
      repeat constructor; try done; by destruct Hopened as [-> | ->].
Qed.

End upload_further.

Lemma upload_keyword_failure_witness :
  outcome (upload demo_templates no_json_world "guide.pdf" "%PDF-1.7")
  = Raise (ExternalError "Expecting value").
Proof.
  apply (upload_keyword_failure demo_templates no_json_world "guide.pdf"
           "%PDF-1.7" "Quito travel guide").
  - left. split; reflexivity.
  - discriminate.
  - reflexivity.
Defined.

Lemma upload_trends_client_failure_witness :
  outcome (upload demo_templates no_trends_world "guide.pdf" "%PDF-1.7")
  = Raise (ExternalError "429 Too Many Requests").
Proof.
  apply (upload_trends_client_failure demo_templates no_trends_world
           "guide.pdf" "%PDF-1.7" "Quito travel guide"
           (demo_taxonomy ["a"; "b"; "c"] [])).
  - vm_compute. reflexivity.
  - discriminate.
  - reflexivity.
Defined.

Lemma upload_no_candidates_witness :
  ∃ r, outcome (upload demo_templates no_keywords_world "guide.pdf" "%PDF-1.7")
       = Return r ∧ keywords_ranked r = [].
Proof.
  destruct (upload_no_candidates demo_templates no_keywords_world
              "guide.pdf" "%PDF-1.7" "Quito travel guide"
              (demo_taxonomy [] []))
    as (r & Hr & Hranked & _).
  - vm_compute. reflexivity.
  - reflexivity.
  - by exists r.
Defined.

(** ** Copy and export *)

Section copy_export.
Context (tpl : templates) (w : world).

Lemma upload_trace_scores filename content text seo_data scores :
  outcome (analyse tpl w filename content) = Return (text, seo_data) →
  outcome (trends_popularity w (candidates_of seo_data)) = Return scores →
  ∃ opened r, (opened = EvPdfOpen ∨ opened = EvDocxOpen) ∧
    outcome (upload tpl w filename content) = Return r ∧
    trace (upload tpl w filename content)
    = [EvTempWrite content; opened; EvLLM (keywords_prompt tpl text)] ++
      trace (trends_popularity w (candidates_of seo_data)) ++
      [ EvLLM (copy_prompt tpl text (keyword <$> keywords_ranked r));
        EvUuid ] ++
      export_save w (seo_copy_markdown r).
Proof.
  intros Ha Hscores.
  destruct (analyse_trace _ _ _ _ _ _ Ha) as (opened & Hopened & Htrace).
  exists opened. eexists. split; [done|].
  split; [by eapply upload_outcome|].
  rewrite upload_analyse, trace_bind, Ha, Htrace. simpl.
  rewrite (respond_trace _ _ _ _ scores) by done.
  by rewrite ranked_entries_keywords.
Qed.

Lemma docx_name_of_eq md_text :
  docx_name_of w md_text =
  if converted w md_text then
    match docx_save w ("/tmp/" +:+ docx_name w) (markdown_blocks md_text) with
    | Return _ => Some (docx_name w)
    | Raise _ => None
    end
  else None.
Proof.
  unfold docx_name_of, docx_name. cbv zeta.
  destruct (converted w md_text) eqn:Hconv.
  - by rewrite markdown_to_docx_converted.
  - by destruct (markdown_to_docx_refused w _
                   ("/tmp/" +:+ "seo-draft-" +:+ uuid4_hex w +:+ ".docx")
                   Hconv) as [e ->].
Qed.

(** X12. An answered request has asked the language model twice: for the
    keywords, before the trends service is touched, and for the copy,
    after the last query; the token comes next, and the save of the
    converted copy is the last call when the document library has taken
    the block of every line. When the library refuses a block the token
    is the last call: nothing is saved. *)
Theorem upload_trace filename content text seo_data scores :
  outcome (analyse tpl w filename content) = Return (text, seo_data) →
  outcome (trends_popularity w (candidates_of seo_data)) = Return scores →
  ∃ opened r, (opened = EvPdfOpen ∨ opened = EvDocxOpen) ∧
    outcome (upload tpl w filename content) = Return r ∧
    trace (upload tpl w filename content)
    = [EvTempWrite content; opened; EvLLM (keywords_prompt tpl text)] ++
      trace (trends_popularity w (candidates_of seo_data)) ++
      [ EvLLM (copy_prompt tpl text (keyword <$> keywords_ranked r));
        EvUuid ] ++
      (if forallb (accepts w) (markdown_blocks (seo_copy_markdown r))
       then [ EvDocxSave ("/tmp/" +:+ docx_name w)
                (markdown_blocks (seo_copy_markdown r)) ]
       else []).
Proof. apply upload_trace_scores. Qed.

(** X13. The export of an answered request is the conversion of the very
    copy it returns, the error line too when the copy failed, to the
    file "/tmp/seo-draft-<token>.docx". The response names that file when
    the document library takes the block of every line and the writer
    returns; it has [None] when the library refuses a block, and then
    nothing is saved, or when the writer raises. A failed export fails
    nothing else. *)
Theorem upload_export filename content text seo_data scores :
  outcome (analyse tpl w filename content) = Return (text, seo_data) →
  outcome (trends_popularity w (candidates_of seo_data)) = Return scores →
  ∃ r, outcome (upload tpl w filename content) = Return r ∧
    let blocks := markdown_blocks (seo_copy_markdown r) in
    let path := "/tmp/" +:+ docx_name w in
    if forallb (accepts w) blocks then
      last (trace (upload tpl w filename content))
      = Some (EvDocxSave path blocks) ∧
      docx_filename r =
        match docx_save w path blocks with
        | Return _ => Some (docx_name w)
        | Raise _ => None
        end
    else
      last (trace (upload tpl w filename content)) = Some EvUuid ∧
      docx_filename r = None.
Proof.
  intros Ha Hscores.
  destruct (upload_trace_scores _ _ _ _ _ Ha Hscores)
    as (opened & r & _ & Hr & Htrace).
  exists r. split; [done|]. cbv zeta.
  assert (docx_filename r = docx_name_of w (seo_copy_markdown r)) as Hname.
  { rewrite (upload_outcome _ _ _ _ _ _ _ Ha Hscores) in Hr.
    by injection Hr as <-. }
  rewrite Hname, docx_name_of_eq, Htrace. unfold export_save, converted.
  destruct (forallb _ _); (split; [|done]); by rewrite !last_app.
Qed.

End copy_export.

Lemma upload_trace_witness :
  (∃ r, outcome (upload demo_templates abc_world "guide.pdf" "%PDF-1.7")
        = Return r ∧
     trace (upload demo_templates abc_world "guide.pdf" "%PDF-1.7")
     = [ EvTempWrite "%PDF-1.7"; EvPdfOpen;
         EvLLM "Analyze: Quito travel guide";
         EvTrendReq; EvTrendsQuery ["a"; "b"; "c"];
         EvLLM "Keywords: c, a, b Text: Quito travel guide";
         EvUuid;
         EvDocxSave "/tmp/seo-draft-0123abcd.docx" [Heading 1 "Ecuador"] ]) ∧
  (∃ r, outcome (upload demo_templates control_world "guide.pdf" "%PDF-1.7")
        = Return r ∧
     trace (upload demo_templates control_world "guide.pdf" "%PDF-1.7")
     = [ EvTempWrite "%PDF-1.7"; EvPdfOpen;
         EvLLM "Analyze: Quito travel guide";
         EvTrendReq; EvTrendsQuery ["a"; "b"; "c"];
         EvLLM "Keywords: c, a, b Text: Quito travel guide";
         EvUuid ]).
Proof.
  split.
  - destruct (upload_trace demo_templates abc_world "guide.pdf" "%PDF-1.7"
                "Quito travel guide" (demo_taxonomy ["a"; "b"; "c"] [])
                (<["a" := Some 80%Q]> (<["b" := None]>
                   (<["c" := Some 40%Q]> ∅))))
      as (opened & r & _ & Hr & _).
    + vm_compute. reflexivity.
    + vm_compute. reflexivity.
    + exists r. split; [done|]. vm_compute. reflexivity.
  - destruct (upload_trace demo_templates control_world "guide.pdf"
                "%PDF-1.7" "Quito travel guide"
                (demo_taxonomy ["a"; "b"; "c"] [])
                (<["a" := Some 80%Q]> (<["b" := None]>
                   (<["c" := Some 40%Q]> ∅))))
      as (opened & r & _ & Hr & _).
    + vm_compute. reflexivity.
    + vm_compute. reflexivity.
    + exists r. split; [done|]. vm_compute. reflexivity.
Defined.

Lemma upload_export_witness :
  (∃ r, outcome (upload demo_templates quota_world "guide.pdf" "%PDF-1.7")
        = Return r ∧
     last (trace (upload demo_templates quota_world "guide.pdf" "%PDF-1.7"))
     = Some (EvDocxSave "/tmp/seo-draft-0123abcd.docx"
               [Paragraph "Error generating SEO copy: insufficient_quota"
                  None]) ∧
     docx_filename r = Some "seo-draft-0123abcd.docx") ∧
  (∃ r, outcome (upload demo_templates control_world "guide.pdf" "%PDF-1.7")
        = Return r ∧
     seo_copy_markdown r = control_copy ∧
     last (trace (upload demo_templates control_world "guide.pdf"
                    "%PDF-1.7"))
     = Some EvUuid ∧
     docx_filename r = None) ∧
  (∃ r, outcome (upload demo_templates read_only_world "guide.pdf"
                   "%PDF-1.7")
        = Return r ∧
     last (trace (upload demo_templates read_only_world "guide.pdf"
                    "%PDF-1.7"))
     = Some (EvDocxSave "/tmp/seo-draft-0123abcd.docx"
               [Heading 1 "Ecuador"]) ∧
     docx_filename r = None).
Proof.
  split_and!.
  - destruct (upload_export demo_templates quota_world "guide.pdf"
                "%PDF-1.7" "Quito travel guide"
                (demo_taxonomy ["a"; "b"] ["a"; "c"])
                (<["a" := Some 80%Q]> (<["b" := None]>
                   (<["c" := Some 40%Q]> ∅))))
      as (r & Hr & Hexport).
    + vm_compute. reflexivity.
    + vm_compute. reflexivity.
    + exists r. split; [done|].
      vm_compute in Hr. injection Hr as <-. exact Hexport.
  - destruct (upload_export demo_templates control_world "guide.pdf"
                "%PDF-1.7" "Quito travel guide"
                (demo_taxonomy ["a"; "b"; "c"] [])
                (<["a" := Some 80%Q]> (<["b" := None]>
                   (<["c" := Some 40%Q]> ∅))))
      as (r & Hr & Hexport).
    + vm_compute. reflexivity.
    + vm_compute. reflexivity.
    + exists r. split; [done|].
      vm_compute in Hr. injection Hr as <-. split; [reflexivity|].
      exact Hexport.
  - destruct (upload_export demo_templates read_only_world "guide.pdf"
                "%PDF-1.7" "Quito travel guide"
                (demo_taxonomy ["a"; "b"; "c"] [])
                (<["a" := Some 80%Q]> (<["b" := None]>
                   (<["c" := Some 40%Q]> ∅))))
      as (r & Hr & Hexport).
    + vm_compute. reflexivity.
    + vm_compute. reflexivity.
    + exists r. split; [done|].
      vm_compute in Hr. injection Hr as <-. exact Hexport.
Defined.

(** ** Prompts, bounds and order *)

Section prompts.
Context (tpl : templates).

Lemma str_take_app_ge n s t :
  n ≤ String.length s → PyStr.str_take n (s +:+ t) = PyStr.str_take n s.
Proof.
  revert s. induction n as [|n IH]; intros s Hn; [done|].
  destruct s as [|c s]; [simpl in Hn; lia|].
  rewrite str_app_cons. simpl. rewrite IH; [done|]. simpl in Hn. lia.
Qed.

Lemma copy_prompt_eq text text' ranked ranked' :
  PyStr.str_take 10000 text = PyStr.str_take 10000 text' →
  take 15 ranked = take 15 ranked' →
  copy_prompt tpl text ranked = copy_prompt tpl text' ranked'.
Proof.
  intros Htext Hranked. unfold copy_prompt. cbv zeta.
  assert (∀ l : list string,
            match l with [] => ""
                    | _ => PyStr.join ", " (take 15 l) end
            = PyStr.join ", " (take 15 l)) as Htop
    by (by intros []).
  by rewrite !Htop, Htext, Hranked.
Qed.

(** X14. Of the ranking the copy prompt takes the first 15 keywords and
    no more: a ranking cut after its first 15 keywords gives the same
    prompt, and so do two rankings that start with the same 15. *)
Theorem copy_prompt_top_only text ranked ranked' :
  copy_prompt tpl text ranked = copy_prompt tpl text (take 15 ranked) ∧
  (take 15 ranked = take 15 ranked' →
   copy_prompt tpl text ranked = copy_prompt tpl text ranked').
Proof.
  split.
  - apply copy_prompt_eq; [done|]. by rewrite take_take.
  - by apply copy_prompt_eq.
Qed.

(** X15. The keyword prompt holds the first 12000 characters of the text
    and the copy prompt its first 10000: what a longer text has beyond
    them reaches neither prompt. *)
Theorem prompts_truncate_text text more ranked :
  (12000 ≤ String.length text →
   keywords_prompt tpl (text +:+ more) = keywords_prompt tpl text) ∧
  (10000 ≤ String.length text →
   copy_prompt tpl (text +:+ more) ranked = copy_prompt tpl text ranked).
Proof.
  split; intros Hlen.
  - unfold keywords_prompt. by rewrite str_take_app_ge.
  - apply copy_prompt_eq; [|done]. by rewrite str_take_app_ge.
Qed.

End prompts.

Lemma copy_prompt_top_only_witness :
  copy_prompt demo_templates "Quito" sixteen_keywords
  = copy_prompt demo_templates "Quito" (take 15 sixteen_keywords ++ ["zz"]).
Proof.
  apply (copy_prompt_top_only demo_templates "Quito" sixteen_keywords
           (take 15 sixteen_keywords ++ ["zz"])).
  reflexivity.
Defined.

Lemma str_repeat_length c n : String.length (str_repeat c n) = n.
Proof. induction n as [|n IH]; [done|]. simpl. by rewrite IH. Qed.

Lemma prompts_truncate_text_witness :
  keywords_prompt demo_templates (str_repeat "x" 12000 +:+ "tail")
  = keywords_prompt demo_templates (str_repeat "x" 12000) ∧
  copy_prompt demo_templates (str_repeat "x" 12000 +:+ "tail") ["a"]
  = copy_prompt demo_templates (str_repeat "x" 12000) ["a"].
Proof.
  split.
  - apply (prompts_truncate_text demo_templates (str_repeat "x" 12000)
             "tail" []).
    rewrite str_repeat_length. apply le_n.
  - apply (prompts_truncate_text demo_templates (str_repeat "x" 12000)
             "tail" ["a"]).
    rewrite str_repeat_length. apply Nat.leb_le. vm_compute. reflexivity.
Defined.

Section bounds.
Context (tpl : templates) (w : world).

Lemma seeds_of_length seo_data : length (seeds_of seo_data) ≤ 15.
Proof. unfold seeds_of. rewrite length_take. lia. Qed.

Lemma longtails_of_length seo_data : length (longtails_of seo_data) ≤ 15.
Proof. unfold longtails_of. rewrite length_take. lia. Qed.

Lemma candidates_of_length seo_data : length (candidates_of seo_data) ≤ 30.
Proof.
  unfold candidates_of. rewrite length_app.
  pose proof (seeds_of_length seo_data).
  pose proof (longtails_of_length seo_data). lia.
Qed.

Lemma queries_app t1 t2 :
  filter (λ ev, is_query ev = true) (t1 ++ t2)
  = filter (λ ev, is_query ev = true) t1
    ++ filter (λ ev, is_query ev = true) t2.
Proof. apply filter_app. Qed.

(** X16. However long the keyword lists of the model are, an answered
    request returns at most 15 seed keywords, at most 15 long-tail
    keywords and at most 30 ranked entries, and it has sent at most 6
    queries to the trends service. *)
Theorem upload_bounds filename content text seo_data :
  outcome (analyse tpl w filename content) = Return (text, seo_data) →
  trend_req w = Return tt →
  ∃ r, outcome (upload tpl w filename content) = Return r ∧
    length (seed_keywords r) ≤ 15 ∧
    length (long_tail_keywords r) ≤ 15 ∧
    length (keywords_ranked r) ≤ 30 ∧
    length (filter (λ ev, is_query ev = true)
              (trace (upload tpl w filename content))) ≤ 6.
Proof.
  intros Ha Hreq.
  pose proof (trends_popularity_returns w (candidates_of seo_data) Hreq)
    as Hscores.
  destruct (upload_trace_scores tpl w _ _ _ _ _ Ha Hscores)
    as (opened & r & Hopened & Hr & Htrace).
  exists r. split; [done|].
  pose proof Hr as Hr'.
  rewrite (upload_outcome _ _ _ _ _ _ _ Ha Hscores) in Hr'.
  injection Hr' as <-. cbn [seed_keywords long_tail_keywords keywords_ranked
                              response_of].
  split_and!.
  - apply seeds_of_length.
  - apply longtails_of_length.
  - unfold ranked_entries, rank.
    rewrite length_fmap, sorted_reverse_length. apply candidates_of_length.
  - rewrite Htrace, !queries_app.
    assert (filter (λ ev, is_query ev = true)
              [EvTempWrite content; opened;
               EvLLM (keywords_prompt tpl text)] = []) as ->.
    { by destruct Hopened as [-> | ->]. }
    rewrite app_nil_l, length_app.
    assert (length (filter (λ ev, is_query ev = true)
                      (trace (trends_popularity w (candidates_of seo_data))))
            ≤ 6) as Hcount.
    { destruct (decide (candidates_of seo_data = [])) as [Hnil|Hne].
      - rewrite Hnil. unfold trace. cbn. lia.
      - rewrite trends_popularity_eq by done. unfold trace. cbn [fst].
        rewrite filter_cons_False by done.
        rewrite queries_of_batches, chunk_length.
        pose proof (candidates_of_length seo_data) as Hlen.
        pose proof (Nat.Div0.div_le_mono
                      (length (candidates_of seo_data) + 5 - 1) 34 5
                      ltac:(lia)) as Hdiv.
        change (34 / 5) with 6 in Hdiv. lia. }
    rewrite length_app.
    assert (∀ md_text,
              length (filter (λ ev, is_query ev = true)
                        (export_save w md_text)) = 0) as ->.
    { intros md_text. unfold export_save. by destruct (converted w _). }
    assert (∀ prompt,
              length (filter (λ ev, is_query ev = true)
                        [EvLLM prompt; EvUuid]) = 0) as -> by done.
    lia.
Qed.

(** X17. The seed keywords and the long-tail keywords an answered request
    returns have no repetition, and each list is made of keywords of the
    model's list, in the order they have there. *)
Theorem upload_keyword_lists filename content text seo_data :
  outcome (analyse tpl w filename content) = Return (text, seo_data) →
  trend_req w = Return tt →
  ∃ r, outcome (upload tpl w filename content) = Return r ∧
    NoDup (seed_keywords r) ∧ NoDup (long_tail_keywords r) ∧
    sublist (seed_keywords r) (default [] (sd_seed_keywords seo_data)) ∧
    sublist (long_tail_keywords r)
      (default [] (sd_long_tail_keywords seo_data)).
Proof.
  intros Ha Hreq.
  pose proof (trends_popularity_returns w (candidates_of seo_data) Hreq)
    as Hscores.
  eexists. split; [by eapply upload_outcome|].
  cbn [seed_keywords long_tail_keywords response_of]. split_and!.
  - apply NoDup_seeds_of.
  - apply NoDup_longtails_of.
  - unfold seeds_of. rewrite unique_keys_first_occurrences.
    etrans; [apply sublist_take|apply first_occurrences_sublist].
  - unfold longtails_of. rewrite unique_keys_first_occurrences.
    etrans; [apply sublist_take|apply first_occurrences_sublist].
Qed.

End bounds.

Lemma upload_bounds_witness :
  ∃ r, outcome (upload demo_templates repeated_world "guide.pdf" "%PDF-1.7")
       = Return r ∧
    length (keywords_ranked r) ≤ 30 ∧
    length (filter (λ ev, is_query ev = true)
              (trace (upload demo_templates repeated_world "guide.pdf"
                        "%PDF-1.7"))) ≤ 6.
Proof.
  destruct (upload_bounds demo_templates repeated_world "guide.pdf"
              "%PDF-1.7" "Quito travel guide"
              (demo_taxonomy ["a"; "b"; "c"; "d"; "e"] ["a"]))
    as (r & Hr & _ & _ & Hranked & Hqueries).
  - vm_compute. reflexivity.
  - reflexivity.
  - by exists r.
Defined.

Lemma upload_keyword_lists_witness :
  ∃ r, outcome (upload demo_templates repeated_world "guide.pdf" "%PDF-1.7")
       = Return r ∧
    NoDup (seed_keywords r) ∧
    sublist (seed_keywords r) ["a"; "b"; "c"; "d"; "e"].
Proof.
  destruct (upload_keyword_lists demo_templates repeated_world "guide.pdf"
              "%PDF-1.7" "Quito travel guide"
              (demo_taxonomy ["a"; "b"; "c"; "d"; "e"] ["a"]))
    as (r & Hr & Hnodup & _ & Hsub & _).
  - vm_compute. reflexivity.
  - reflexivity.
  - by exists r.
Defined.

Section ranking_further.
Context (tpl : templates) (w : world).

Lemma same_key_score scores v k :
  same_key (sort_key scores)
    (match v with Some a => Num (- a) | None => NegInf end) k
  ↔ same_score scores v k.
Proof.
  unfold same_key, same_score, sort_key.
  destruct v as [a|], (dict_get scores k) as [b|]; simpl.
  - rewrite !Qle_bool_iff. split.
    + intros [H1 H2]. apply Qopp_le_compat in H1, H2.
      rewrite !Qopp_involutive in H1, H2. by apply Qle_antisym.
    + intros H. split; apply Qopp_le_compat; rewrite H; apply Qle_refl.
  - split; [by intros [_ ?]|done].
  - split; [by intros [? _]|done].
  - done.
Qed.

(** X18. The ranking of an answered request, read on the scores: an
    entry with a score comes before every entry without one, and of two
    entries with scores the earlier one has the lower score, or the same.
    (The key negates the score and [reverse=True] turns the order once
    more.) *)
Theorem upload_ranking_order filename content text seo_data :
  outcome (analyse tpl w filename content) = Return (text, seo_data) →
  trend_req w = Return tt →
  ∃ r, outcome (upload tpl w filename content) = Return r ∧
    ∀ i j ei ej, i < j →
      keywords_ranked r !! i = Some ei →
      keywords_ranked r !! j = Some ej →
      match popularity ei, popularity ej with
      | Some vi, Some vj => (vi <= vj)%Q
      | None, Some _ => False
      | _, None => True
      end.
Proof.
  intros Ha Hreq.
  pose proof (trends_popularity_returns w (candidates_of seo_data) Hreq)
    as Hscores.
  eexists. split; [by eapply upload_outcome|].
  cbn [keywords_ranked response_of]. unfold ranked_entries.
  intros i j ei ej Hij Hi Hj.
  rewrite list_lookup_fmap in Hi, Hj.
  destruct (rank _ _ !! i) as [ki|] eqn:Hki; [|done].
  destruct (rank _ _ !! j) as [kj|] eqn:Hkj; [|done].
  injection Hi as <-. injection Hj as <-. cbn [popularity].
  by eapply rank_order.
Qed.

(** X19. The sort of the ranking is stable: the keywords of one score are
    ranked in the order they have in the candidate list, and so are the
    keywords without a score. *)
Theorem upload_ranking_stable filename content text seo_data scores :
  outcome (analyse tpl w filename content) = Return (text, seo_data) →
  outcome (trends_popularity w (candidates_of seo_data)) = Return scores →
  ∃ r, outcome (upload tpl w filename content) = Return r ∧
    ∀ v, filter (same_score scores v) (keyword <$> keywords_ranked r)
         = filter (same_score scores v) (candidates_of seo_data).
Proof.
  intros Ha Hscores.
  eexists. split; [by eapply upload_outcome|].
  cbn [keywords_ranked response_of]. intros v.
  rewrite ranked_entries_keywords. unfold rank.
  rewrite <- !(list_filter_iff _ _ _ (same_key_score scores v)).
  apply sorted_reverse_stable.
Qed.

End ranking_further.

Lemma upload_ranking_order_witness :
  ∃ r, outcome (upload demo_templates abc_world "guide.pdf" "%PDF-1.7")
       = Return r ∧
    ∀ ei ej,
      keywords_ranked r !! 0 = Some ei →
      keywords_ranked r !! 2 = Some ej →
      match popularity ei, popularity ej with
      | Some vi, Some vj => (vi <= vj)%Q
      | None, Some _ => False
      | _, None => True
      end.
Proof.
  destruct (upload_ranking_order demo_templates abc_world "guide.pdf"
              "%PDF-1.7" "Quito travel guide"
              (demo_taxonomy ["a"; "b"; "c"] []))
    as (r & Hr & Horder).
  - vm_compute. reflexivity.
  - reflexivity.
  - exists r. split; [done|]. intros ei ej. apply Horder. lia.
Defined.

Lemma upload_ranking_stable_witness :
  ∃ r, outcome (upload demo_templates repeated_world "guide.pdf" "%PDF-1.7")
       = Return r ∧
    filter (same_score (<["a" := Some 80%Q]> (<["b" := None]>
              (<["c" := None]> (<["d" := None]> (<["e" := None]> ∅)))))
              None)
      (keyword <$> keywords_ranked r)
    = ["b"; "c"; "d"; "e"].
Proof.
  destruct (upload_ranking_stable demo_templates repeated_world "guide.pdf"
              "%PDF-1.7" "Quito travel guide"
              (demo_taxonomy ["a"; "b"; "c"; "d"; "e"] ["a"])
              (<["a" := Some 80%Q]> (<["b" := None]>
                 (<["c" := None]> (<["d" := None]> (<["e" := None]> ∅))))))
    as (r & Hr & Hstable).
  - vm_compute. reflexivity.
  - vm_compute. reflexivity.
  - exists r. split; [done|]. rewrite Hstable. vm_compute. reflexivity.
Defined.

Section dispatch.
Context (tpl : templates) (w : world).

Lemma lower_app s t : PyStr.lower (s +:+ t) = PyStr.lower s +:+ PyStr.lower t.
Proof.
  induction s as [|c s IH]; [done|].
  rewrite str_app_cons. cbn [PyStr.lower]. by rewrite IH, str_app_cons.
Qed.

Lemma endswith_app s t : PyStr.endswith (s +:+ t) t = true.
Proof.
  unfold PyStr.endswith. rewrite str_length_app.
  replace (String.length s + String.length t - String.length t)
    with (String.length s) by lia.
  rewrite str_drop_app, String.eqb_refl, andb_true_r.
  apply Nat.leb_le. lia.
Qed.

Lemma endswith_docx_pdf s : PyStr.endswith (s +:+ ".docx") ".pdf" = false.
Proof.
  unfold PyStr.endswith. rewrite str_length_app.
  change (String.length ".docx") with 5. change (String.length ".pdf") with 4.
  replace (String.length s + 5 - 4) with (String.length s + 1) by lia.
  assert (PyStr.str_drop (String.length s + 1) (s +:+ ".docx") = "docx") as ->.
  { induction s as [|c s IH]; [done|]. by rewrite str_app_cons. }
  apply andb_false_r.
Qed.

(** X20. The extension is read without regard to case, whatever comes
    before it: a name that ends in [.pdf] in any mix of cases is opened by
    the PDF parser, one that ends in [.docx] in any mix of cases by the
    DOCX parser, right after the temporary copy is written. *)
Theorem upload_extension_case stem ext content :
  (PyStr.lower ext = ".pdf" →
   ∃ rest, trace (upload tpl w (stem +:+ ext) content)
           = EvTempWrite content :: EvPdfOpen :: rest) ∧
  (PyStr.lower ext = ".docx" →
   ∃ rest, trace (upload tpl w (stem +:+ ext) content)
           = EvTempWrite content :: EvDocxOpen :: rest).
Proof.
  split; intros Hext; unfold upload; rewrite lower_app, Hext.
  - rewrite endswith_app, !trace_bind. cbn [call trace outcome fst snd].
    unfold extract_text_from_pdf. rewrite trace_bind.
    unfold call at 1. cbn [trace fst]. simpl. eauto.
  - rewrite endswith_docx_pdf, endswith_app, !trace_bind.
    cbn [call trace outcome fst snd].
    unfold extract_text_from_docx. rewrite trace_bind.
    unfold call at 1. cbn [trace fst]. simpl. eauto.
Qed.

End dispatch.

Lemma upload_extension_case_witness :
  ∃ rest, trace (upload demo_templates abc_world "Guide.PDF" "%PDF-1.7")
          = EvTempWrite "%PDF-1.7" :: EvPdfOpen :: rest.
Proof.
  apply (upload_extension_case demo_templates abc_world "Guide" ".PDF").
  reflexivity.
Defined.

Section lines.

Lemma str_forall_app p s t :
  str_forall p (s +:+ t) = str_forall p s && str_forall p t.
Proof.
  induction s as [|c s IH]; [done|].
  rewrite str_app_cons. simpl. by rewrite IH, andb_assoc.
Qed.

Lemma splitlines_single s :
  one_line s = true → s ≠ "" → PyStr.splitlines s = [s].
Proof.
  unfold one_line. induction s as [|a s IH]; intros Hs Hne; [done|].
  simpl in Hs. apply andb_true_iff in Hs as [Ha Hs].
  rewrite splitlines_cons. apply negb_true_iff in Ha. rewrite Ha.
  destruct s as [|b s]; [done|]. by rewrite IH.
Qed.

Lemma splitlines_joined lines :
  Forall (λ l, one_line l = true) lines →
  last lines ≠ Some "" →
  PyStr.splitlines (PyStr.join (String PyStr.LF "") lines) = lines.
Proof.
  induction 1 as [|l lines Hl Hlines IH]; intros Hlast; [done|].
  destruct lines as [|l' lines].
  - simpl. apply splitlines_single; [done|]. intros ->. by apply Hlast.
  - rewrite join_cons_cons.
    change (String PyStr.LF "" +:+ ?t) with (String PyStr.LF t).
    rewrite splitlines_first_line by done. f_equal. apply IH.
    by rewrite last_cons_cons in Hlast.
Qed.

Lemma splitlines_lines s :
  Forall (λ l, one_line l = true) (PyStr.splitlines s).
Proof.
  assert (∀ n s, String.length s ≤ n →
            Forall (λ l, one_line l = true) (PyStr.splitlines s)) as H;
    [|by apply (H (String.length s))].
  clear s. induction n as [|n IH]; intros [|c s] Hn; simpl in Hn;
    try (by constructor); [lia|].
  rewrite splitlines_cons. destruct (PyStr.is_linebreak c) eqn:Hc.
  - constructor; [done|]. destruct s as [|c' s']; [by constructor|].
    destruct (_ && _); apply IH; simpl in *; lia.
  - assert (Forall (λ l, one_line l = true) (PyStr.splitlines s)) as Hs
      by (apply IH; lia).
    destruct Hs as [|l ls Hl Hls]; simpl.
    + constructor; [|done]. unfold one_line. simpl. by rewrite Hc.
    + constructor; [|done]. unfold one_line in *. simpl. by rewrite Hc, Hl.
Qed.

Lemma line_block_one_line line :
  one_line line = true → one_line (block_text (line_block line)) = true.
Proof.
  intros Hline. pose proof (line_block_becomes line) as Hb.
  destruct Hb as [text|text|line rest Hbullet|line _ _ _]; simpl.
  - unfold one_line in *. rewrite str_forall_app in Hline.
    by apply andb_true_iff in Hline as [_ ?].
  - unfold one_line in *. rewrite str_forall_app in Hline.
    by apply andb_true_iff in Hline as [_ ?].
  - destruct Hbullet as (indent & gap & _ & _ & _ & _ & ->).
    unfold one_line in *. rewrite !str_forall_app in Hline.
    by repeat apply andb_true_iff in Hline as [_ Hline].
  - done.
Qed.

(** X21. A copy written as lines without line breaks, joined by line
    feeds, is converted to one block per line, empty lines in between as
    empty paragraphs, but for an empty last line: what follows the final
    line feed must not be empty to count as a line, so a copy that ends
    in a line feed gets no paragraph for it. *)
Theorem markdown_blocks_lines lines :
  Forall (λ l, one_line l = true) lines →
  (last lines ≠ Some "" →
   markdown_blocks (PyStr.join (String PyStr.LF "") lines)
   = line_block <$> lines) ∧
  (lines ≠ [] →
   markdown_blocks (PyStr.join (String PyStr.LF "") (lines ++ [""]))
   = line_block <$> lines).
Proof.
  intros Hlines. split.
  - intros Hlast. by rewrite markdown_blocks_map, splitlines_joined.
  - intros Hne. rewrite markdown_blocks_map. f_equal.
    clear -Hlines Hne. induction Hlines as [|l lines Hl Hlines IH]; [done|].
    destruct lines as [|l' lines].
    + simpl.
      change (l +:+ String PyStr.LF "" +:+ "")
        with (l +:+ String PyStr.LF "").
      by rewrite splitlines_first_line.
    + rewrite <- app_comm_cons.
      change ((l' :: lines) ++ [""]) with (l' :: (lines ++ [""])).
      rewrite join_cons_cons.
      change (String PyStr.LF "" +:+ ?t) with (String PyStr.LF t).
      rewrite splitlines_first_line by done. f_equal.
      by apply IH.
Qed.

(** X22. No block of the exported document holds a line break in its
    text, whatever the copy: every line boundary [splitlines] knows ends a
    block. *)
Theorem markdown_blocks_no_break md_text :
  Forall (λ b, one_line (block_text b) = true) (markdown_blocks md_text).
Proof.
  rewrite markdown_blocks_map. apply Forall_fmap.
  eapply Forall_impl; [apply splitlines_lines|].
  intros line Hline. by apply line_block_one_line.
Qed.

End lines.

Lemma markdown_blocks_lines_witness :
  markdown_blocks (PyStr.join (String PyStr.LF "") ["## A"; ""; "- item"])
  = [Heading 1 "A"; Paragraph "" None;
     Paragraph "item" (Some "List Bullet")] ∧
  markdown_blocks
    (PyStr.join (String PyStr.LF "") (["## A"; ""; "- item"] ++ [""]))
  = [Heading 1 "A"; Paragraph "" None;
     Paragraph "item" (Some "List Bullet")].
Proof.
  destruct (markdown_blocks_lines ["## A"; ""; "- item"]) as [Hlines Hlast].
  - by repeat constructor.
  - split; [by apply Hlines|by apply Hlast].
Defined.
